(** * Object access control behind the routes of the 1ISTEN server

    A shallow embedding of [routes.ts] and [storage.ts]:
    the download route [GET /objects/*], the project audio route
    [PUT /api/projects/:id/audio] and the show, season and episode update
    routes, together with the object storage service they call.

    The handlers are written in a small monad that threads the world (blob
    store and database), carries thrown JavaScript errors, and records every
    call a handler makes on a collaborator, so that a statement such as
    "the attach is made with this policy" is a statement about the run. *)

From Stdlib Require Import ZArith Strings.Byte Ascii String.
From stdpp Require Import base option list sorting strings gmap.

Local Open Scope Z_scope.
Local Open Scope string_scope.

(** ** JavaScript values of a request body *)

(** The routes read [req.body] untyped ([req: any]); a field holds one of
    these values, and a field that is missing reads as [undefined]. *)
Inductive JsVal : Type :=
| JsUndefined
| JsNull
| JsBool (b : bool)
| JsNum (n : Z)
| JsStr (s : string).

#[global] Instance JsVal_eq_dec : EqDecision JsVal.
Proof. solve_decision. Defined.

(** [if (v)], [!v] and [v ? a : b] test the truthiness of [v]. *)
Definition truthy (v : JsVal) : bool :=
  match v with
  | JsUndefined | JsNull => false
  | JsBool b => b
  | JsNum n => negb (Z.eqb n 0)
  | JsStr s => negb (String.eqb s "")
  end.

(** A JSON object: the request body, a table row, a JSON response. *)
Abbreviation JsObject := (gmap string JsVal).

(** [o.k] *)
Definition field (o : JsObject) (k : string) : JsVal :=
  default JsUndefined (o !! k).

(** ** Access-control data *)

Inductive Visibility : Type := public | private.
Inductive ObjectPermission : Type := READ | WRITE.

#[global] Instance Visibility_eq_dec : EqDecision Visibility.
Proof. solve_decision. Defined.
#[global] Instance ObjectPermission_eq_dec : EqDecision ObjectPermission.
Proof. solve_decision. Defined.

(** An explicit grant of the ACL record (spec, section 3). *)
Record AclRule : Type := MkRule {
  rule_principal : string;
  rule_permission : ObjectPermission }.

(** The ACL record attached to one object identifier (spec, section 3). *)
Record ACLRecord : Type := MkRecord {
  owner : string;
  visibility : Visibility;
  rules : list AclRule }.

#[global] Instance AclRule_eq_dec : EqDecision AclRule.
Proof. solve_decision. Defined.
#[global] Instance ACLRecord_eq_dec : EqDecision ACLRecord.
Proof. solve_decision. Defined.

(** The policy argument of [attachPolicy]: [{owner, visibility}]. *)
Record Policy : Type := MkPolicy {
  p_owner : string;
  p_visibility : Visibility }.

(** The object literal the routes pass to [trySetObjectEntityAclPolicy]:
    [{ owner: userId, visibility: ... }].  [userId] is read from an untyped
    request, so the owner is a string or [undefined] ([None]). *)
Record ObjectAclPolicy : Type := MkAclPolicy {
  acl_owner : option string;
  acl_visibility : Visibility }.

#[global] Instance ObjectAclPolicy_eq_dec : EqDecision ObjectAclPolicy.
Proof. solve_decision. Defined.

(** ** The world: blob store and database *)

Abbreviation ObjectIdentifier := string (only parsing).

(** A stored object carries its bytes and, as metadata, its ACL record
    (absent until a policy is attached). *)
Record StoredObject : Type := MkObject {
  bytes : list byte;
  acl : option ACLRecord }.

(** The blob store: the URL prefix under which upload destinations are
    issued (the store's private root) and the objects below it, keyed by
    object identifier. *)
Record BlobStore : Type := MkStore {
  store_root : string;
  store_objects : gmap string StoredObject }.

(** A row of the [users] table; only the columns the routes read. *)
Record User : Type := MkUser {
  user_id : string;
  user_role : string }.

(** The tables of [storage.ts] the modelled routes touch.  [db_now] is the
    value [new Date()] yields when a row is updated. *)
Record Database : Type := MkDb {
  users : list User;
  shows : list JsObject;
  seasons : list JsObject;
  episodes : list JsObject;
  db_now : Z }.

Record World : Type := MkWorld {
  blob : BlobStore;
  db : Database }.

Definition object_at (w : World) (id : ObjectIdentifier) : option StoredObject :=
  store_objects (blob w) !! id.

(** The ACL record of an identifier: absent when the object is absent or
    carries no policy yet. *)
Definition acl_record (w : World) (id : ObjectIdentifier) : option ACLRecord :=
  o ← object_at w id; acl o.

(** ** Requests and responses *)

(** [req_path] is [req.path], [req_id] is [req.params.id], [req_body] is the
    parsed JSON body.  [req_user] is [req.user.claims.sub], the principal
    the session carries; [None] is a request without an authenticated
    user. *)
Record Request : Type := MkRequest {
  req_path : string;
  req_id : string;
  req_user : option string;
  req_body : JsObject }.

(** What the handler writes to [res]: [res.sendStatus(code)],
    [res.status(code).json(body)] (a body [None] is [undefined]), the bytes
    [downloadObject] pipes into it, or nothing at all. *)
Inductive Response : Type :=
| SendStatus (code : Z)
| Json (code : Z) (body : option JsObject)
| Stream (content : list byte)
| Unanswered.

Definition status_of (r : Response) : option Z :=
  match r with
  | SendStatus c | Json c _ => Some c
  | Stream _ => Some 200
  | Unanswered => None
  end.

Definition streamed (r : Response) : option (list byte) :=
  match r with Stream b => Some b | _ => None end.

(** ** Errors *)

(** What a collaborator may throw.  [ObjectNotFoundError] is the class the
    routes import; [MalformedReference] and [PolicyConflict] are the other
    members of the spec's taxonomy (section 7); [TypeError] is the
    JavaScript runtime's. *)
Inductive Exn : Type :=
| ObjectNotFoundError
| MalformedReference
| PolicyConflict
| TypeError.

#[global] Instance Exn_eq_dec : EqDecision Exn.
Proof. solve_decision. Defined.

(** Modelled from the spec: [error instanceof ObjectNotFoundError].
    [objectStorage.ts], which declares the error classes, is missing from
    the sources, and [ObjectNotFoundError] is the one class [routes.ts]
    imports from it.  Section 4.4, step 1: the resolver "fails
    MalformedReference -> surfaced as not-found to the caller (never leak
    resolver internals)"; section 7: MalformedReference is "surfaced as
    not-found, never as a parsing error".  A malformed reference therefore
    reaches the routes as an [ObjectNotFoundError], as a missing object
    does; a policy conflict and a runtime error do not. *)
Definition isObjectNotFoundError (e : Exn) : bool :=
  match e with
  | ObjectNotFoundError | MalformedReference => true
  | PolicyConflict | TypeError => false
  end.

Inductive Outcome (A : Type) : Type :=
| Return (a : A)
| Throw (e : Exn).
Arguments Return {A} a.
Arguments Throw {A} e.

(** ** Calls on collaborators *)

Abbreviation ObjectFile := string (only parsing).

Inductive Call : Type :=
| CallGetUser (id : option string)
| CallUpdateShow (id : string) (updates : JsObject)
| CallUpdateSeason (id : string) (updates : JsObject)
| CallUpdateEpisode (id : string) (updates : JsObject)
| CallGetObjectEntityFile (path : string)
| CallCanAccessObjectEntity (file : ObjectFile) (userId : option string)
    (requested : ObjectPermission)
| CallDownloadObject (file : ObjectFile)
| CallTrySetObjectEntityAclPolicy (rawPath : JsVal) (policy : ObjectAclPolicy).

(** The attach calls of a run, in order. *)
Definition attach_call (c : Call) : option (JsVal * ObjectAclPolicy) :=
  match c with
  | CallTrySetObjectEntityAclPolicy raw p => Some (raw, p)
  | _ => None
  end.

Definition attach_calls (t : list Call) : list (JsVal * ObjectAclPolicy) :=
  omap attach_call t.

(** Calls that only read. *)
Definition read_only_call (c : Call) : bool :=
  match c with
  | CallGetUser _ | CallGetObjectEntityFile _
  | CallCanAccessObjectEntity _ _ _ | CallDownloadObject _ => true
  | _ => false
  end.

(** ** The monad of the handlers *)

(** An operation of a collaborator: it may change the world and either
    returns or throws. *)
Definition Op (A : Type) : Type := World -> World * Outcome A.

Record Run (A : Type) : Type := MkRun {
  trace : list Call;
  final : World;
  outcome : Outcome A }.
Arguments MkRun {A} _ _ _.
Arguments trace {A} _.
Arguments final {A} _.
Arguments outcome {A} _.

Definition M (A : Type) : Type := World -> Run A.

Definition ret {A} (a : A) : M A := fun w => MkRun [] w (Return a).

Definition throw {A} (e : Exn) : M A := fun w => MkRun [] w (Throw e).

Definition bind {A B} (m : M A) (k : A -> M B) : M B :=
  fun w =>
    let r := m w in
    match outcome r with
    | Throw e => MkRun (trace r) (final r) (Throw e)
    | Return a =>
        let r' := k a (final r) in
        MkRun (trace r ++ trace r') (final r') (outcome r')
    end.

(** [try { m } catch (error) { h error }]: what [m] did before it threw
    stays done. *)
Definition try_catch {A} (m : M A) (h : Exn -> M A) : M A :=
  fun w =>
    let r := m w in
    match outcome r with
    | Return a => r
    | Throw e =>
        let r' := h e (final r) in
        MkRun (trace r ++ trace r') (final r') (outcome r')
    end.

(** [await collaborator.op(args)]: the call is recorded and the operation
    runs on the current world. *)
Definition invoke {A} (c : Call) (op : Op A) : M A :=
  fun w => let '(w', o) := op w in MkRun [c] w' o.

(** A call whose promise is not awaited: a rejection does not reach the
    enclosing [try], and the handler itself sends nothing. *)
Definition unawaited (m : M Response) : M Response :=
  fun w =>
    let r := m w in
    match outcome r with
    | Return a => r
    | Throw _ => MkRun (trace r) (final r) (Return Unanswered)
    end.

Notation "'let*' x ':=' m 'in' k" := (bind m (fun x => k))
  (at level 10, x name, m at level 100, k at level 200).

(** ** [storage.ts]: the database operations the routes call *)

(** A table is the list of its rows.  The queries are total here: a failure
    of the database itself (a lost connection, a rejected value) is not
    part of the model. *)

(** [getUser(id)]: [select().from(users).where(eq(users.id, id))], first
    row.  An [undefined] id equals the id of no row. *)
Definition getUser (id : option string) (d : Database) : option User :=
  head (filter (fun u => Some (user_id u) = id) (users d)).

(** [where(eq(table.id, id))] *)
Definition has_id (id : string) (row : JsObject) : bool :=
  bool_decide (row !! "id" = Some (JsStr id)).

(** [set({ ...updates, updatedAt: new Date() })] on one row: the columns
    named in the update take the new values, the others stay.  The update
    is taken as one the table accepts, its keys columns and its values of
    their types: which keys are columns, and which values a column rejects
    with an error, is the schema's ([@shared/schema]), not among the
    sources.  The properties below are those that do not depend on it:
    which rows an update leaves alone, and what the routes hand to it. *)
Definition set_columns (updates : JsObject) (now : Z) (row : JsObject) : JsObject :=
  <["updatedAt" := JsNum now]> updates ∪ row.

(** [update(table).set(...).where(eq(table.id, id)).returning()]: the
    table after the update and the rows that were updated. *)
Definition update_where (id : string) (updates : JsObject) (now : Z)
    (rows : list JsObject) : list JsObject * list JsObject :=
  ((fun row => if has_id id row then set_columns updates now row else row) <$> rows,
   set_columns updates now <$> filter (fun row => has_id id row = true) rows).

Definition with_db (w : World) (d : Database) : World :=
  MkWorld (blob w) d.

(** [updateShow], [updateSeason], [updateEpisode]: [const [updated] = ...;
    return updated] ([undefined] when no row has the id). *)
Definition updateShow (id : string) (updates : JsObject) : Op (option JsObject) :=
  fun w =>
    let d := db w in
    let '(rows, updated) := update_where id updates (db_now d) (shows d) in
    (with_db w (MkDb (users d) rows (seasons d) (episodes d) (db_now d)),
     Return (head updated)).

Definition updateSeason (id : string) (updates : JsObject) : Op (option JsObject) :=
  fun w =>
    let d := db w in
    let '(rows, updated) := update_where id updates (db_now d) (seasons d) in
    (with_db w (MkDb (users d) (shows d) rows (episodes d) (db_now d)),
     Return (head updated)).

Definition updateEpisode (id : string) (updates : JsObject) : Op (option JsObject) :=
  fun w =>
    let d := db w in
    let '(rows, updated) := update_where id updates (db_now d) (episodes d) in
    (with_db w (MkDb (users d) (shows d) (seasons d) rows (db_now d)),
     Return (head updated)).

(** The exported [storage] object, as the routes call it. *)
Module storage.
Definition getUser (id : option string) : M (option User) :=
  invoke (CallGetUser id) (fun w => (w, Return (getUser id (db w)))).
Definition updateShow (id : string) (updates : JsObject) : M (option JsObject) :=
  invoke (CallUpdateShow id updates) (updateShow id updates).
Definition updateSeason (id : string) (updates : JsObject) : M (option JsObject) :=
  invoke (CallUpdateSeason id updates) (updateSeason id updates).
Definition updateEpisode (id : string) (updates : JsObject) : M (option JsObject) :=
  invoke (CallUpdateEpisode id updates) (updateEpisode id updates).
End storage.

(** ** The object storage service *)

(** The methods of [ObjectStorageService] the routes call.  The class lives
    in [objectStorage.ts]; the routes are written against this interface. *)
Record ObjectStorageService : Type := MkService {
  getObjectEntityFile : string -> Op ObjectFile;
  canAccessObjectEntity :
    ObjectFile -> option string -> ObjectPermission -> Op bool;
  downloadObject : ObjectFile -> Op Response;
  trySetObjectEntityAclPolicy : JsVal -> ObjectAclPolicy -> Op string }.

(** *** Entity path resolver (spec, section 4.1) *)

(** The text before the first [?]: the destination without its query and
    signature components. *)
Fixpoint strip_query (s : string) : string :=
  match s with
  | EmptyString => EmptyString
  | String c s' => if Ascii.eqb c "?" then EmptyString else String c (strip_query s')
  end.

(** [strip_prefix p s] is what follows [p] in [s], when [s] starts with [p]. *)
Fixpoint strip_prefix (p s : string) : option string :=
  match p, s with
  | EmptyString, _ => Some s
  | String a p', String b s' => if Ascii.eqb a b then strip_prefix p' s' else None
  | String _ _, EmptyString => None
  end.

(** The segments of a path, split at [/]. *)
Fixpoint segments (s : string) : list string :=
  match s with
  | EmptyString => [EmptyString]
  | String c s' =>
      if Ascii.eqb c "/" then EmptyString :: segments s'
      else match segments s' with
           | seg :: rest => String c seg :: rest
           | [] => [String c EmptyString]
           end
  end.

(** A path-traversal sequence: a segment [..]. *)
Definition has_traversal (s : string) : bool :=
  existsb (String.eqb "..") (segments s).

Definition well_formed_identifier (id : string) : bool :=
  negb (String.eqb id "") && negb (has_traversal id).

(** The externally visible routing prefix of the download side. *)
Definition routing_prefix : string := "/objects/".

(** Modelled from the spec: the resolver of [objectStorage.ts] is missing
    from the sources.  Section 4.1: [resolve] "fails with MalformedReference
    if the input does not match the blob-store's namespace prefix or encodes
    a path-traversal sequence"; the download side "strips the externally
    visible routing prefix (e.g. a fixed /objects/ segment) to recover the
    identifier suffix".  Objects are keyed by that suffix; the join to the
    store's private root is the store client's and is not modelled. *)
Definition resolveDownload (path : string) : Outcome ObjectIdentifier :=
  match strip_prefix routing_prefix path with
  | Some id => if well_formed_identifier id then Return id else Throw MalformedReference
  | None => Throw MalformedReference
  end.

(** Modelled from the spec: the upload side of the missing resolver.
    Section 4.1: it "accepts the full destination URL returned by the Upload
    Broker, strips store-specific query/signature components, and recovers
    the same canonical identifier". *)
Definition resolveUpload (root : string) (destinationUrl : string)
    : Outcome ObjectIdentifier :=
  match strip_prefix root (strip_query destinationUrl) with
  | Some id => if well_formed_identifier id then Return id else Throw MalformedReference
  | None => Throw MalformedReference
  end.

(** *** Permission evaluator (spec, section 4.2) *)

(** [WRITE >= READ]: a granted permission covers a requested one. *)
Definition covers (granted requested : ObjectPermission) : bool :=
  match granted, requested with
  | WRITE, _ => true
  | READ, READ => true
  | READ, WRITE => false
  end.

Definition rule_grants (caller : option string) (requested : ObjectPermission)
    (r : AclRule) : bool :=
  bool_decide (caller = Some (rule_principal r)) && covers (rule_permission r) requested.

(** Modelled from the spec: [canAccessObject] of [objectAcl.ts] is missing
    from the sources.  Section 4.2, "first match wins": 1. no ACL record,
    deny; 2. the caller equals the owner, allow; 3. READ requested and
    visibility public, allow; 4. an explicit rule for the caller with
    permission >= requested, allow; 5. otherwise deny.  [true] is allow. *)
Definition evaluate (callerPrincipal : option string) (record : option ACLRecord)
    (requested : ObjectPermission) : bool :=
  match record with
  | None => false
  | Some r =>
      if bool_decide (callerPrincipal = Some (owner r)) then true
      else if bool_decide (requested = READ) && bool_decide (visibility r = public) then true
      else if existsb (rule_grants callerPrincipal requested) (rules r) then true
      else false
  end.

(** *** Attach (spec, section 4.3) *)

Definition set_acl (w : World) (id : ObjectIdentifier) (o : StoredObject)
    (r : ACLRecord) : World :=
  MkWorld
    (MkStore (store_root (blob w))
       (<[id := MkObject (bytes o) (Some r)]> (store_objects (blob w))))
    (db w).

(** Modelled from the spec: [trySetObjectEntityAclPolicy] of
    [objectStorage.ts] is missing from the sources.  Section 4.3:
    [attachPolicy] resolves the destination (section 4.1), then "fails with
    ObjectNotFound if the underlying bytes were never actually written"; "if
    an ACL record already exists for this identifier with a different owner,
    fails with PolicyConflict"; "otherwise creates (or idempotently
    re-writes with identical owner) the ACL record and returns the canonical
    identifier".  A new record has no explicit rules ("empty by default"); a
    re-write keeps the rules the record has. *)
Definition attachPolicy (destinationUrl : string) (policy : Policy) : Op ObjectIdentifier :=
  fun w =>
    match resolveUpload (store_root (blob w)) destinationUrl with
    | Throw e => (w, Throw e)
    | Return id =>
        match object_at w id with
        | None => (w, Throw ObjectNotFoundError)
        | Some o =>
            match acl o with
            | None =>
                (set_acl w id o (MkRecord (p_owner policy) (p_visibility policy) []),
                 Return id)
            | Some r =>
                if bool_decide (owner r = p_owner policy)
                then (set_acl w id o
                        (MkRecord (p_owner policy) (p_visibility policy) (rules r)),
                      Return id)
                else (w, Throw PolicyConflict)
            end
        end
    end.

(** *** The service of the spec behind the interface of the routes *)

Module SpecService.

(** Modelled from the spec: [getObjectEntityFile] is missing from the
    sources.  Section 4.4, steps 1 and 4: the request path is resolved
    (MalformedReference on failure) and "if the store reports the object
    missing ... fails ObjectNotFound"; the file handed to the later calls
    is the identifier of an object the store holds. *)
Definition getObjectEntityFile (path : string) : Op ObjectFile :=
  fun w =>
    match resolveDownload path with
    | Throw e => (w, Throw e)
    | Return id =>
        match object_at w id with
        | Some _ => (w, Return id)
        | None => (w, Throw ObjectNotFoundError)
        end
    end.

(** Modelled from the spec: [canAccessObjectEntity] is missing from the
    sources.  Section 4.4, steps 2 and 3: "load ACL record for identifier
    (absent is a valid state, treated as deny)", then evaluate by
    section 4.2. *)
Definition canAccessObjectEntity (file : ObjectFile) (userId : option string)
    (requested : ObjectPermission) : Op bool :=
  fun w => (w, Return (evaluate userId (acl_record w file) requested)).

(** Modelled from the spec: [downloadObject] is missing from the sources.
    Section 4.4, step 4: "stream bytes from the store to out; if the store
    reports the object missing ... fails ObjectNotFound". *)
Definition downloadObject (file : ObjectFile) : Op Response :=
  fun w =>
    match object_at w file with
    | Some o => (w, Return (Stream (bytes o)))
    | None => (w, Throw ObjectNotFoundError)
    end.

(** Modelled from the spec: [trySetObjectEntityAclPolicy] is
    [attachPolicy] of section 4.3, whose parameters are a string and a
    policy with a string owner.  The routes pass untyped values; a
    reference that is not a string or an owner that is [undefined] is
    outside the declared signature and is taken to throw a [TypeError]. *)
Definition trySetObjectEntityAclPolicy (rawPath : JsVal) (aclPolicy : ObjectAclPolicy)
    : Op string :=
  fun w =>
    match rawPath, acl_owner aclPolicy with
    | JsStr url, Some o => attachPolicy url (MkPolicy o (acl_visibility aclPolicy)) w
    | _, _ => (w, Throw TypeError)
    end.

Definition service : ObjectStorageService :=
  MkService getObjectEntityFile canAccessObjectEntity downloadObject
    trySetObjectEntityAclPolicy.

End SpecService.

(** ** [routes.ts] *)

Definition Handler : Type := Request -> M Response.

(** A middleware either answers the request itself ([Some]) or passes it
    on ([None], a call of [next()]). *)
Definition Middleware : Type := Request -> option Response.

(** Modelled from the spec: [replitAuth.ts], which defines the
    [isAuthenticated] middleware, is missing from the sources.  Section 6:
    the identity source, the external auth middleware, "supplies an
    authenticated principal identifier or anonymous for each inbound
    request; this core never performs authentication itself".  The
    middleware answers no request of its own: it leaves the principal it
    established in [req.user] (here [req_user], [None] for the anonymous
    caller) and calls [next()], and what a caller may do is decided by the
    handler behind it. *)
Definition isAuthenticated : Middleware :=
  fun _ => None.

(** [app.get(path, middleware, handler)], [app.put(...)] *)
Definition route (mw : Middleware) (h : Handler) : Handler :=
  fun req =>
    match mw req with
    | Some r => ret r
    | None => h req
    end.

(** [req.user.claims.sub]: a property read on [undefined] throws. *)
Definition claims_sub (req : Request) : M string :=
  match req_user req with
  | Some sub => ret sub
  | None => throw TypeError
  end.

(** [user?.role === "client"] *)
Definition is_client (user : option User) : bool :=
  match user with
  | Some u => String.eqb (user_role u) "client"
  | None => false
  end.

(** [!user]: the query returned no row. *)
Definition no_row {A : Type} (row : option A) : bool :=
  match row with
  | Some _ => false
  | None => true
  end.

Definition message (code : Z) (key text : string) : Response :=
  Json code (Some {[ key := JsStr text ]}).

(** [visibility: updates.isPublished ? "public" : "private"] *)
Definition published_visibility (updates : JsObject) : Visibility :=
  if truthy (field updates "isPublished") then public else private.

Section Routes.

(** [new ObjectStorageService()] *)
Context (objectStorageService : ObjectStorageService).

Definition svc_getObjectEntityFile (path : string) : M ObjectFile :=
  invoke (CallGetObjectEntityFile path)
    (getObjectEntityFile objectStorageService path).

Definition svc_canAccessObjectEntity (objectFile : ObjectFile)
    (userId : option string) (requestedPermission : ObjectPermission) : M bool :=
  invoke (CallCanAccessObjectEntity objectFile userId requestedPermission)
    (canAccessObjectEntity objectStorageService objectFile userId requestedPermission).

Definition svc_downloadObject (objectFile : ObjectFile) : M Response :=
  invoke (CallDownloadObject objectFile)
    (downloadObject objectStorageService objectFile).

Definition svc_trySetObjectEntityAclPolicy (rawPath : JsVal)
    (aclPolicy : ObjectAclPolicy) : M string :=
  invoke (CallTrySetObjectEntityAclPolicy rawPath aclPolicy)
    (trySetObjectEntityAclPolicy objectStorageService rawPath aclPolicy).

(** [app.get] of the path [/objects/:objectPath], behind [isAuthenticated],
    lines 47-68.  [downloadObject] is called without [await]. *)
Definition objects_handler : Handler :=
  fun req =>
    let userId := req_user req in
    try_catch
      (let* objectFile := svc_getObjectEntityFile (req_path req) in
       let* canAccess := svc_canAccessObjectEntity objectFile userId READ in
       if negb canAccess then ret (SendStatus 401)
       else unawaited (svc_downloadObject objectFile))
      (fun error =>
         if isObjectNotFoundError error then ret (SendStatus 404)
         else ret (SendStatus 500)).

Definition get_objects : Handler := route isAuthenticated objects_handler.

(** [app.put("/api/projects/:id/audio", isAuthenticated, ...)],
    lines 266-294. *)
Definition project_audio_handler : Handler :=
  fun req =>
    try_catch
      (let* userId := claims_sub req in
       let* user := storage.getUser (Some userId) in
       if negb (truthy (field (req_body req) "audioFileUrl"))
       then ret (message 400 "error" "audioFileUrl is required")
       else if is_client user
       then ret (message 403 "message" "Access denied")
       else
         let* objectPath :=
           svc_trySetObjectEntityAclPolicy (field (req_body req) "audioFileUrl")
             (MkAclPolicy (Some userId) private) in
         ret (Json 200 (Some {[ "objectPath" := JsStr objectPath ]})))
      (fun _ => ret (message 500 "error" "Internal server error")).

Definition put_project_audio : Handler :=
  route isAuthenticated project_audio_handler.

(** The [coverImageURL] block, the same in the three update handlers:
    the policy is attached, the path it returns is stored under
    [coverImageUrl] and [coverImageURL] is deleted from the update. *)
Definition attach_cover (userId : option string) (updates : JsObject) : M JsObject :=
  if truthy (field updates "coverImageURL") then
    let* coverPath :=
      svc_trySetObjectEntityAclPolicy (field updates "coverImageURL")
        (MkAclPolicy userId public) in
    ret (delete "coverImageURL" (<["coverImageUrl" := JsStr coverPath]> updates))
  else ret updates.

(** The [audioFileURL] block of the episode update handler. *)
Definition attach_audio (userId : option string) (updates : JsObject) : M JsObject :=
  if truthy (field updates "audioFileURL") then
    let* audioPath :=
      svc_trySetObjectEntityAclPolicy (field updates "audioFileURL")
        (MkAclPolicy userId (published_visibility updates)) in
    ret (delete "audioFileURL" (<["audioFileUrl" := JsStr audioPath]> updates))
  else ret updates.

(** [app.put("/api/shows/:id", isAuthenticated, ...)], lines 367-399. *)
Definition show_update_handler : Handler :=
  fun req =>
    try_catch
      (let userId := req_user req in
       let* user := storage.getUser userId in
       if no_row user
       then ret (message 401 "message" "Authentication required")
       else
         let* updates := attach_cover userId (req_body req) in
         let* updatedShow := storage.updateShow (req_id req) updates in
         ret (Json 200 updatedShow))
      (fun _ => ret (message 400 "message" "Failed to update show")).

Definition put_show : Handler := route isAuthenticated show_update_handler.

(** [app.put("/api/seasons/:id", isAuthenticated, ...)], lines 466-498. *)
Definition season_update_handler : Handler :=
  fun req =>
    try_catch
      (let userId := req_user req in
       let* user := storage.getUser userId in
       if no_row user
       then ret (message 401 "message" "Authentication required")
       else
         let* updates := attach_cover userId (req_body req) in
         let* updatedSeason := storage.updateSeason (req_id req) updates in
         ret (Json 200 updatedSeason))
      (fun _ => ret (message 400 "message" "Failed to update season")).

Definition put_season : Handler := route isAuthenticated season_update_handler.

(** [app.put("/api/episodes/:id", isAuthenticated, ...)], lines 571-616. *)
Definition episode_update_handler : Handler :=
  fun req =>
    try_catch
      (let userId := req_user req in
       let* user := storage.getUser userId in
       if no_row user
       then ret (message 401 "message" "Authentication required")
       else
         let* updates := attach_audio userId (req_body req) in
         let* updates := attach_cover userId updates in
         let* updatedEpisode := storage.updateEpisode (req_id req) updates in
         ret (Json 200 updatedEpisode))
      (fun _ => ret (message 400 "message" "Failed to update episode")).

Definition put_episode : Handler := route isAuthenticated episode_update_handler.

End Routes.

(** ** A small world to run the routes on *)

Module Demo.

Definition root : string := "https://storage.example/bucket/.private/".

Definition audio : list byte := [x52; x49; x46; x46].

Definition alice : User := MkUser "u1" "producer".
Definition bob : User := MkUser "u2" "producer".
Definition carol : User := MkUser "u3" "client".

Definition database : Database :=
  MkDb [alice; bob; carol]
    [ {[ "id" := JsStr "s1"; "title" := JsStr "Campus Radio" ]} ]
    [ {[ "id" := JsStr "n1" ]} ]
    [ {[ "id" := JsStr "e1"; "title" := JsStr "Pilot" ]} ]
    1700000000.

Definition store_with (a : option ACLRecord) : BlobStore :=
  MkStore root {[ "uploads/a1" := MkObject audio a ]}.

(** The object is stored, no policy attached yet. *)
Definition staged : World := MkWorld (store_with None) database.

(** The object is owned by [u1]. *)
Definition policed (v : Visibility) : World :=
  MkWorld (store_with (Some (MkRecord "u1" v []))) database.

Definition destination : string :=
  "https://storage.example/bucket/.private/uploads/a1?X-Goog-Signature=abc".

Definition download (caller : option string) : Request :=
  MkRequest "/objects/uploads/a1" "" caller ∅.

End Demo.

(** ** Statements and requests used below *)

(** The files a run asked [downloadObject] to stream. *)
Definition download_calls (t : list Call) : list string :=
  omap (fun c => match c with CallDownloadObject f => Some f | _ => None end) t.

(** C1, as stated: a public object is streamed to a caller, whoever the
    caller is. *)
Definition public_object_streams_to (caller : option string) : Prop :=
  forall (w : World) (req : Request) (id : string) (o : StoredObject) (r : ACLRecord),
    req_user req = caller ->
    resolveDownload (req_path req) = Return id ->
    object_at w id = Some o ->
    acl o = Some r ->
    visibility r = public ->
    outcome (get_objects SpecService.service req w) = Return (Stream (bytes o)).

(** C6, as stated: a download whose path does not resolve fails with
    MalformedReference and is answered as not found. *)
Definition unresolved_is_not_found : Prop :=
  forall (w : World) (req : Request) (e : Exn),
    resolveDownload (req_path req) = Throw e ->
    e = MalformedReference /\
    exists r, outcome (get_objects SpecService.service req w) = Return r /\
              status_of r = Some 404.

(** The three methods the download route calls are reads on this service:
    none of them changes the world. *)
Definition reads_leave_world (svc : ObjectStorageService) : Prop :=
  (forall path w, (getObjectEntityFile svc path w).1 = w) /\
  (forall file userId requested w,
      (canAccessObjectEntity svc file userId requested w).1 = w) /\
  (forall file w, (downloadObject svc file w).1 = w).

(** The name a visibility has in a request body. *)
Definition visibility_name (v : Visibility) : string :=
  match v with public => "public" | private => "private" end.

(** C4, as stated: the PUT operation attaches the owner and the visibility
    its body supplies with the reference, and returns the identifier. *)
Definition attaches_supplied_policy : Prop :=
  forall (w : World) (req : Request) (url own id : string) (v : Visibility),
    field (req_body req) "audioFileUrl" = JsStr url ->
    field (req_body req) "owner" = JsStr own ->
    field (req_body req) "visibility" = JsStr (visibility_name v) ->
    outcome (put_project_audio SpecService.service req w) =
      Return (Json 200 (Some {[ "objectPath" := JsStr id ]})) ->
    exists rs,
      acl_record (final (put_project_audio SpecService.service req w)) id =
        Some (MkRecord own v rs).

(** A request of the producer [u1] that names [u2] as owner and asks for a
    public object. *)
Definition supplied_policy_request : Request :=
  MkRequest "/api/projects/p1/audio" "p1" (Some "u1")
    {[ "audioFileUrl" := JsStr Demo.destination;
       "owner" := JsStr "u2";
       "visibility" := JsStr "public" ]}.

(** An episode update of [u1] that publishes the uploaded audio. *)
Definition publish_request (published : JsVal) : Request :=
  MkRequest "/api/episodes/e1" "e1" (Some "u1")
    {[ "audioFileURL" := JsStr Demo.destination; "isPublished" := published ]}.

(** An update of [u1] that supplies a cover image. *)
Definition cover_request : Request :=
  MkRequest "/api/shows/s1" "s1" (Some "u1")
    {[ "coverImageURL" := JsStr Demo.destination; "title" := JsStr "Campus Radio" ]}.

(** An episode update of [u1] that names the uploaded object both as audio
    and as cover image, and does not publish. *)
Definition same_object_request : Request :=
  MkRequest "/api/episodes/e1" "e1" (Some "u1")
    {[ "audioFileURL" := JsStr Demo.destination;
       "coverImageURL" := JsStr Demo.destination;
       "isPublished" := JsBool false ]}.

(** The reference is a destination URL that resolves, under the root of the
    store, to the object [id]. *)
Definition resolves_to (root : string) (rawPath : JsVal) (id : ObjectIdentifier) : bool :=
  match rawPath with
  | JsStr url =>
      match resolveUpload root url with
      | Return id' => String.eqb id' id
      | Throw _ => false
      end
  | _ => false
  end.

(** What the attach calls of an episode update leave of the world, read off
    lines 584-608: the audio attach when the update has an [audioFileURL],
    then, unless that call throws, the cover attach when the update has a
    [coverImageURL]; each call runs on the world the call before it left. *)
Definition attaches_of_episode_update (svc : ObjectStorageService)
    (userId : option string) (updates : JsObject) (w : World) : World :=
  let cover_attach w1 :=
    if truthy (field updates "coverImageURL")
    then (trySetObjectEntityAclPolicy svc (field updates "coverImageURL")
            (MkAclPolicy userId public) w1).1
    else w1 in
  if truthy (field updates "audioFileURL") then
    match trySetObjectEntityAclPolicy svc (field updates "audioFileURL")
            (MkAclPolicy userId
               (if truthy (field updates "isPublished") then public else private)) w
    with
    | (w1, Return _) => cover_attach w1
    | (w1, Throw _) => w1
    end
  else cover_attach w.

(** C8, as stated: after an episode update that supplies an [audioFileURL]
    the ACL record of the audio object has the caller as owner, and is
    public exactly when [isPublished] is truthy. *)
Definition audio_record_follows_isPublished : Prop :=
  forall (w : World) (req : Request) (uid url id : string) (u : User) (o : StoredObject),
    req_user req = Some uid ->
    getUser (Some uid) (db w) = Some u ->
    field (req_body req) "audioFileURL" = JsStr url ->
    resolveUpload (store_root (blob w)) url = Return id ->
    object_at w id = Some o ->
    (forall r, acl o = Some r -> owner r = uid) ->
    exists rs,
      acl_record (final (put_episode SpecService.service req w)) id =
        Some (MkRecord uid
                (if truthy (field (req_body req) "isPublished") then public else private)
                rs).

(** * The rest of [storage.ts] and [routes.ts] *)

(** ** Queries *)

(** The JavaScript value of [req.user?.claims?.sub]. *)
Definition js_of (id : option string) : JsVal :=
  match id with
  | Some s => JsStr s
  | None => JsUndefined
  end.

(** [eq(table.column, value)]: equality of SQL, which no row satisfies
    against NULL. *)
Definition column_is (col : string) (v : JsVal) (row : JsObject) : bool :=
  match v with
  | JsUndefined | JsNull => false
  | _ => bool_decide (row !! col = Some v)
  end.

(** [select().from(table).where(p)] *)
Definition select_where (p : JsObject -> bool) (rows : list JsObject) : list JsObject :=
  filter (fun row => p row = true) rows.

(** [delete(table).where(p)] *)
Definition delete_where (p : JsObject -> bool) (rows : list JsObject) : list JsObject :=
  filter (fun row => p row = false) rows.

(** The number a row holds in a column it is ordered by; a column without
    one is NULL. *)
Definition sort_key (col : string) (row : JsObject) : option Z :=
  match row !! col with
  | Some (JsNum n) => Some n
  | _ => None
  end.

(** [ORDER BY column DESC]: greatest first, NULL before every number. *)
Definition desc_le (a b : option Z) : bool :=
  match a, b with
  | None, _ => true
  | Some _, None => false
  | Some x, Some y => Z.leb y x
  end.

(** [ORDER BY column]: least first, NULL after every number. *)
Definition asc_le (a b : option Z) : bool :=
  match a, b with
  | _, None => true
  | None, Some _ => false
  | Some x, Some y => Z.leb x y
  end.

Definition before_desc (col : string) : relation JsObject :=
  fun a b => Is_true (desc_le (sort_key col a) (sort_key col b)).

Definition before_asc (col : string) : relation JsObject :=
  fun a b => Is_true (asc_le (sort_key col a) (sort_key col b)).

(** [.orderBy(desc(table.column))] *)
Definition order_desc (col : string) (rows : list JsObject) : list JsObject :=
  merge_sort (before_desc col) rows.

(** [.orderBy(table.column)] *)
Definition order_asc (col : string) (rows : list JsObject) : list JsObject :=
  merge_sort (before_asc col) rows.

(** [set({ column: sql`${table.column} + 1` })] on one row; NULL + 1 is
    NULL.  The type of the column is the schema's ([@shared/schema]), which
    is not among the sources, and a count at the bound of the column, where
    the statement fails, is not modelled: [bump] is the statement on a
    count below the bound. *)
Definition bump (col : string) (row : JsObject) : JsObject :=
  match row !! col with
  | Some (JsNum n) => <[col := JsNum (n + 1)]> row
  | _ => row
  end.

(** The greatest value of a Postgres [integer].  The properties of the
    counters are stated for counts below it. *)
Definition integer_max : Z := 2147483647.

(** The count of the row in the column is NULL or below that bound. *)
Definition below_integer_max (col : string) (row : JsObject) : bool :=
  match row !! col with
  | Some (JsNum n) => Z.ltb n integer_max
  | _ => true
  end.

(** [update(table).set({ column: column + 1 }).where(eq(table.id, id))] *)
Definition bump_where (id : string) (col : string) (rows : list JsObject)
    : list JsObject :=
  (fun row => if has_id id row then bump col row else row) <$> rows.

(** ** The server state *)

(** The world of the object routes and the tables [projects], [podcasts]
    and [projectMessages], which only the routes of this part touch. *)
Record Site : Type := MkSite {
  site_world : World;
  projects : list JsObject;
  podcasts : list JsObject;
  projectMessages : list JsObject }.

Definition site_db (s : Site) : Database := db (site_world s).

Definition on_db (f : Database -> Database) (s : Site) : Site :=
  MkSite (with_db (site_world s) (f (site_db s)))
    (projects s) (podcasts s) (projectMessages s).

Definition with_projects (s : Site) (rows : list JsObject) : Site :=
  MkSite (site_world s) rows (podcasts s) (projectMessages s).

Definition with_podcasts (s : Site) (rows : list JsObject) : Site :=
  MkSite (site_world s) (projects s) rows (projectMessages s).

(** ** [DatabaseStorage]: users *)

(** [upsertUser(userData)]: [insert(users).values(userData)
    .onConflictDoUpdate({ target: users.id, set: { ...userData, ... } })
    .returning()].  A row with the id takes the new data, otherwise the row
    is added; the row as it stands afterwards is returned. *)
Definition upsertUser (u : User) (d : Database) : Database * User :=
  let same := fun x : User => bool_decide (user_id x = user_id u) in
  let rows :=
    if existsb same (users d)
    then (fun x => if same x then u else x) <$> users d
    else (users d ++ [u])%list in
  (MkDb rows (shows d) (seasons d) (episodes d) (db_now d), u).

(** ** [DatabaseStorage]: projects *)

(** [getProject(id)] *)
Definition getProject (id : string) (s : Site) : option JsObject :=
  head (select_where (has_id id) (projects s)).

(** [getProjectsForClient(clientId)] *)
Definition getProjectsForClient (clientId : JsVal) (s : Site) : list JsObject :=
  order_desc "createdAt" (select_where (column_is "clientId" clientId) (projects s)).

(** [getProjectsForProducer(producerId)] *)
Definition getProjectsForProducer (producerId : JsVal) (s : Site) : list JsObject :=
  order_desc "createdAt"
    (select_where (column_is "assignedProducerId" producerId) (projects s)).

(** [getAllProjects()] *)
Definition getAllProjects (s : Site) : list JsObject :=
  order_desc "createdAt" (projects s).

(** [updateProject(id, updates)] *)
Definition updateProject (id : string) (updates : JsObject) (s : Site)
    : Site * option JsObject :=
  let '(rows, updated) :=
    update_where id updates (db_now (site_db s)) (projects s) in
  (with_projects s rows, head updated).

(** ** [DatabaseStorage]: shows, seasons, episodes *)

(** [getShow(id)] *)
Definition getShow (id : string) (s : Site) : option JsObject :=
  head (select_where (has_id id) (shows (site_db s))).

(** [getShowsForProject(projectId)] *)
Definition getShowsForProject (projectId : JsVal) (s : Site) : list JsObject :=
  order_desc "createdAt"
    (select_where (column_is "projectId" projectId) (shows (site_db s))).

(** [getPublicShows()] *)
Definition getPublicShows (s : Site) : list JsObject :=
  order_desc "createdAt"
    (select_where (column_is "isPublic" (JsBool true)) (shows (site_db s))).

(** [deleteShow(id)] *)
Definition deleteShow (id : string) : Site -> Site :=
  on_db (fun d =>
    MkDb (users d) (delete_where (has_id id) (shows d)) (seasons d) (episodes d)
      (db_now d)).

(** [getSeason(id)] *)
Definition getSeason (id : string) (s : Site) : option JsObject :=
  head (select_where (has_id id) (seasons (site_db s))).

(** [getSeasonsForShow(showId)] *)
Definition getSeasonsForShow (showId : JsVal) (s : Site) : list JsObject :=
  order_asc "seasonNumber"
    (select_where (column_is "showId" showId) (seasons (site_db s))).

(** [deleteSeason(id)] *)
Definition deleteSeason (id : string) : Site -> Site :=
  on_db (fun d =>
    MkDb (users d) (shows d) (delete_where (has_id id) (seasons d)) (episodes d)
      (db_now d)).

(** [getEpisode(id)] *)
Definition getEpisode (id : string) (s : Site) : option JsObject :=
  head (select_where (has_id id) (episodes (site_db s))).

(** [getEpisodesForSeason(seasonId)] *)
Definition getEpisodesForSeason (seasonId : JsVal) (s : Site) : list JsObject :=
  order_asc "episodeNumber"
    (select_where (column_is "seasonId" seasonId) (episodes (site_db s))).

(** [getPublishedEpisodes()] *)
Definition getPublishedEpisodes (s : Site) : list JsObject :=
  order_desc "publishedAt"
    (select_where (column_is "isPublished" (JsBool true)) (episodes (site_db s))).

(** [deleteEpisode(id)] *)
Definition deleteEpisode (id : string) : Site -> Site :=
  on_db (fun d =>
    MkDb (users d) (shows d) (seasons d) (delete_where (has_id id) (episodes d))
      (db_now d)).

Definition bump_episodes (id : string) (col : string) : Site -> Site :=
  on_db (fun d =>
    MkDb (users d) (shows d) (seasons d) (bump_where id col (episodes d))
      (db_now d)).

(** [incrementEpisodePlayCount(id)] *)
Definition incrementEpisodePlayCount (id : string) : Site -> Site :=
  bump_episodes id "playCount".

(** [incrementEpisodeDownloadCount(id)] *)
Definition incrementEpisodeDownloadCount (id : string) : Site -> Site :=
  bump_episodes id "downloadCount".

(** ** [DatabaseStorage]: podcasts and messages *)

(** [getPodcast(id)] *)
Definition getPodcast (id : string) (s : Site) : option JsObject :=
  head (select_where (has_id id) (podcasts s)).

(** [getPodcastsForProject(projectId)] *)
Definition getPodcastsForProject (projectId : JsVal) (s : Site) : list JsObject :=
  order_desc "createdAt"
    (select_where (column_is "projectId" projectId) (podcasts s)).

(** [getPublishedPodcasts()] *)
Definition getPublishedPodcasts (s : Site) : list JsObject :=
  order_desc "publishedAt"
    (select_where (column_is "isPublished" (JsBool true)) (podcasts s)).

(** [incrementPlayCount(id)] *)
Definition incrementPlayCount (id : string) (s : Site) : Site :=
  with_podcasts s (bump_where id "playCount" (podcasts s)).

(** [getProjectMessages(projectId, includeInternal = false)]: without
    [includeInternal] the condition is [and(eq(projectId), eq(isInternal,
    false))]. *)
Definition getProjectMessages (projectId : string) (includeInternal : bool)
    (s : Site) : list JsObject :=
  let of_project := column_is "projectId" (JsStr projectId) in
  let conditions :=
    if includeInternal then of_project
    else fun row => of_project row && column_is "isInternal" (JsBool false) row in
  order_desc "createdAt" (select_where conditions (projectMessages s)).

(** ** The handlers of the remaining routes *)

(** A request with its query string, [req.query]. *)
Record Inbound : Type := MkInbound {
  in_req : Request;
  in_query : JsObject }.

(** What [res.json(...)] or [res.send()] carries. *)
Inductive Body : Type :=
| Rows (rows : list JsObject)
| Row (row : option JsObject)
| UserRow (u : User)
| NoBody.

Record Reply : Type := MkReply {
  reply_status : Z;
  reply_body : Body }.

(** [res.status(code).json({ message: text })] *)
Definition reply_message (code : Z) (text : string) : Reply :=
  MkReply code (Row (Some {[ "message" := JsStr text ]})).

(** The answer of a middleware, as a reply. *)
Definition reply_of (r : Response) : Reply :=
  match r with
  | SendStatus code => MkReply code NoBody
  | Json code body => MkReply code (Row body)
  | Stream _ => MkReply 200 NoBody
  | Unanswered => MkReply 0 NoBody
  end.

(** The handlers of this part read and write the server state and may
    throw. *)
Definition Act (A : Type) : Type := Site -> Site * Outcome A.

Definition act_ret {A} (a : A) : Act A := fun s => (s, Return a).

Definition act_throw {A} (e : Exn) : Act A := fun s => (s, Throw e).

Definition act_bind {A B} (m : Act A) (k : A -> Act B) : Act B :=
  fun s =>
    match m s with
    | (s', Return a) => k a s'
    | (s', Throw e) => (s', Throw e)
    end.

(** [try { m } catch (error) { h error }] *)
Definition act_try {A} (m : Act A) (h : Exn -> Act A) : Act A :=
  fun s =>
    match m s with
    | (s', Return a) => (s', Return a)
    | (s', Throw e) => h e s'
    end.

(** [await storage.query(...)] *)
Definition read {A} (q : Site -> A) : Act A := fun s => (s, Return (q s)).

(** [await storage.statement(...)] *)
Definition write (f : Site -> Site) : Act unit := fun s => (f s, Return tt).

Notation "'let+' x ':=' m 'in' k" := (act_bind m (fun x => k))
  (at level 10, x name, m at level 100, k at level 200).

(** [for (const x of xs) { out.push(...await f(x)) }] *)
Fixpoint act_collect {A B} (f : A -> Act (list B)) (xs : list A) : Act (list B) :=
  match xs with
  | [] => act_ret []
  | x :: xs' =>
      let+ ys := f x in
      let+ rest := act_collect f xs' in
      act_ret (ys ++ rest)%list
  end.

Definition Endpoint : Type := Inbound -> Act Reply.

(** [app.METHOD(path, isAuthenticated, handler)] *)
Definition behind (mw : Middleware) (h : Endpoint) : Endpoint :=
  fun req =>
    match mw (in_req req) with
    | Some r => act_ret (reply_of r)
    | None => h req
    end.

(** [req.user.claims.sub] *)
Definition act_claims_sub (req : Inbound) : Act string :=
  match req_user (in_req req) with
  | Some sub => act_ret sub
  | None => act_throw TypeError
  end.

(** [storage.getUser(userId)] *)
Definition act_getUser (userId : option string) : Act (option User) :=
  read (fun s => getUser userId (site_db s)).

(** [user.role === r] *)
Definition has_role (u : User) (r : string) : bool := String.eqb (user_role u) r.

(** [GET /api/auth/user], lines 29-44. *)
Definition auth_user_handler : Endpoint :=
  fun req =>
    act_try
      (let userId := req_user (in_req req) in
       if negb (truthy (js_of userId))
       then act_ret (reply_message 401 "No user ID found")
       else
         let+ user := act_getUser userId in
         match user with
         | None => act_ret (reply_message 404 "User not found")
         | Some u => act_ret (MkReply 200 (UserRow u))
         end)
      (fun _ => act_ret (reply_message 500 "Failed to fetch user")).

Definition get_auth_user : Endpoint := behind isAuthenticated auth_user_handler.

(** [GET /api/projects], lines 77-100. *)
Definition projects_list_handler : Endpoint :=
  fun req =>
    act_try
      (let userId := req_user (in_req req) in
       let+ user := act_getUser userId in
       match user with
       | None => act_ret (reply_message 404 "User not found")
       | Some u =>
           let+ projects :=
             if has_role u "client"
             then read (getProjectsForClient (js_of userId))
             else if has_role u "admin" || has_role u "producer"
             then read getAllProjects
             else act_ret [] in
           act_ret (MkReply 200 (Rows projects))
       end)
      (fun _ => act_ret (reply_message 500 "Failed to fetch projects")).

Definition get_projects : Endpoint := behind isAuthenticated projects_list_handler.

(** [project.clientId !== userId] *)
Definition not_client_of (project : JsObject) (userId : string) : bool :=
  negb (bool_decide (field project "clientId" = JsStr userId)).

(** [GET /api/projects/:id], lines 118-138. *)
Definition project_get_handler : Endpoint :=
  fun req =>
    act_try
      (let+ userId := act_claims_sub req in
       let+ user := act_getUser (Some userId) in
       let+ project := read (getProject (req_id (in_req req))) in
       match project with
       | None => act_ret (reply_message 404 "Project not found")
       | Some p =>
           if is_client user && not_client_of p userId
           then act_ret (reply_message 403 "Access denied")
           else act_ret (MkReply 200 (Row (Some p)))
       end)
      (fun _ => act_ret (reply_message 500 "Failed to fetch project")).

Definition get_project : Endpoint := behind isAuthenticated project_get_handler.

(** [PATCH /api/projects/:id], lines 140-156. *)
Definition project_patch_handler : Endpoint :=
  fun req =>
    act_try
      (let+ userId := act_claims_sub req in
       let+ user := act_getUser (Some userId) in
       if is_client user
       then act_ret (reply_message 403 "Access denied")
       else
         let+ project :=
           (fun s => let '(s', p) :=
                       updateProject (req_id (in_req req)) (req_body (in_req req)) s in
                     (s', Return p)) in
         act_ret (MkReply 200 (Row project)))
      (fun _ => act_ret (reply_message 500 "Failed to update project")).

Definition patch_project : Endpoint := behind isAuthenticated project_patch_handler.

(** [GET /api/podcasts], lines 159-167; no middleware. *)
Definition get_podcasts : Endpoint :=
  fun req =>
    act_try
      (let+ podcasts := read getPublishedPodcasts in
       act_ret (MkReply 200 (Rows podcasts)))
      (fun _ => act_ret (reply_message 500 "Failed to fetch podcasts")).

(** [GET /api/podcasts/:id], lines 169-180; no middleware. *)
Definition get_podcast : Endpoint :=
  fun req =>
    act_try
      (let+ podcast := read (getPodcast (req_id (in_req req))) in
       match podcast with
       | None => act_ret (reply_message 404 "Podcast not found")
       | Some p =>
           if negb (truthy (field p "isPublished"))
           then act_ret (reply_message 404 "Podcast not found")
           else act_ret (MkReply 200 (Row (Some p)))
       end)
      (fun _ => act_ret (reply_message 500 "Failed to fetch podcast")).

(** [POST /api/podcasts/:id/play], lines 182-190; no middleware. *)
Definition post_podcast_play : Endpoint :=
  fun req =>
    act_try
      (let+ _ := write (incrementPlayCount (req_id (in_req req))) in
       act_ret (MkReply 200 (Row (Some {[ "success" := JsBool true ]}))))
      (fun _ => act_ret (reply_message 500 "Failed to increment play count")).

(** [GET /api/projects/:id/messages], lines 212-234. *)
Definition messages_list_handler : Endpoint :=
  fun req =>
    act_try
      (let+ userId := act_claims_sub req in
       let+ user := act_getUser (Some userId) in
       let+ project := read (getProject (req_id (in_req req))) in
       match project with
       | None => act_ret (reply_message 404 "Project not found")
       | Some p =>
           if is_client user && not_client_of p userId
           then act_ret (reply_message 403 "Access denied")
           else
             let includeInternal := negb (is_client user) in
             let+ messages :=
               read (getProjectMessages (req_id (in_req req)) includeInternal) in
             act_ret (MkReply 200 (Rows messages))
       end)
      (fun _ => act_ret (reply_message 500 "Failed to fetch messages")).

Definition get_messages : Endpoint := behind isAuthenticated messages_list_handler.

(** [GET /api/shows], lines 316-352. *)
Definition shows_list_handler : Endpoint :=
  fun req =>
    act_try
      (let userId := req_user (in_req req) in
       let+ user := act_getUser userId in
       match user with
       | None => act_ret (reply_message 404 "User not found")
       | Some u =>
           let projectId := field (in_query req) "projectId" in
           let isPublic := field (in_query req) "public" in
           let+ shows :=
             if bool_decide (isPublic = JsStr "true")
             then read getPublicShows
             else if truthy projectId
             then read (getShowsForProject projectId)
             else if has_role u "admin"
             then read getPublicShows
             else
               let+ projects :=
                 if has_role u "client"
                 then read (getProjectsForClient (js_of userId))
                 else read (getProjectsForProducer (js_of userId)) in
               let projectIds := (fun p => field p "id") <$> projects in
               act_collect (fun pId => read (getShowsForProject pId)) projectIds in
           act_ret (MkReply 200 (Rows shows))
       end)
      (fun _ => act_ret (reply_message 500 "Failed to fetch shows")).

Definition get_shows : Endpoint := behind isAuthenticated shows_list_handler.

(** [GET /api/shows/:id], lines 354-365. *)
Definition show_get_handler : Endpoint :=
  fun req =>
    act_try
      (let+ show := read (getShow (req_id (in_req req))) in
       match show with
       | None => act_ret (reply_message 404 "Show not found")
       | Some r => act_ret (MkReply 200 (Row (Some r)))
       end)
      (fun _ => act_ret (reply_message 500 "Failed to fetch show")).

Definition get_show : Endpoint := behind isAuthenticated show_get_handler.

(** [!user || (user.role !== "producer" && user.role !== "admin")] *)
Definition may_not_delete_shows (user : option User) : bool :=
  match user with
  | None => true
  | Some u => negb (has_role u "producer") && negb (has_role u "admin")
  end.

(** [DELETE /api/shows/:id], lines 401-416. *)
Definition show_delete_handler : Endpoint :=
  fun req =>
    act_try
      (let userId := req_user (in_req req) in
       let+ user := act_getUser userId in
       if may_not_delete_shows user
       then act_ret (reply_message 403 "Only producers and admins can delete shows")
       else
         let+ _ := write (deleteShow (req_id (in_req req))) in
         act_ret (MkReply 204 NoBody))
      (fun _ => act_ret (reply_message 500 "Failed to delete show")).

Definition delete_show : Endpoint := behind isAuthenticated show_delete_handler.

(** [GET /api/seasons], lines 438-451. *)
Definition seasons_list_handler : Endpoint :=
  fun req =>
    act_try
      (let showId := field (in_query req) "showId" in
       if negb (truthy showId)
       then act_ret (reply_message 400 "showId is required")
       else
         let+ seasons := read (getSeasonsForShow showId) in
         act_ret (MkReply 200 (Rows seasons)))
      (fun _ => act_ret (reply_message 500 "Failed to fetch seasons")).

Definition get_seasons : Endpoint := behind isAuthenticated seasons_list_handler.

(** [GET /api/seasons/:id], lines 453-464. *)
Definition season_get_handler : Endpoint :=
  fun req =>
    act_try
      (let+ season := read (getSeason (req_id (in_req req))) in
       match season with
       | None => act_ret (reply_message 404 "Season not found")
       | Some r => act_ret (MkReply 200 (Row (Some r)))
       end)
      (fun _ => act_ret (reply_message 500 "Failed to fetch season")).

Definition get_season : Endpoint := behind isAuthenticated season_get_handler.

(** [DELETE /api/seasons/:id], lines 500-516. *)
Definition season_delete_handler : Endpoint :=
  fun req =>
    act_try
      (let userId := req_user (in_req req) in
       let+ user := act_getUser userId in
       if no_row user
       then act_ret (reply_message 401 "Authentication required")
       else
         let+ _ := write (deleteSeason (req_id (in_req req))) in
         act_ret (MkReply 204 NoBody))
      (fun _ => act_ret (reply_message 500 "Failed to delete season")).

Definition delete_season : Endpoint := behind isAuthenticated season_delete_handler.

(** [GET /api/episodes], lines 538-556. *)
Definition episodes_list_handler : Endpoint :=
  fun req =>
    act_try
      (let seasonId := field (in_query req) "seasonId" in
       let published := field (in_query req) "published" in
       if bool_decide (published = JsStr "true")
       then
         let+ episodes := read getPublishedEpisodes in
         act_ret (MkReply 200 (Rows episodes))
       else if truthy seasonId
       then
         let+ episodes := read (getEpisodesForSeason seasonId) in
         act_ret (MkReply 200 (Rows episodes))
       else
         act_ret (reply_message 400
           "seasonId parameter is required when not fetching published episodes"))
      (fun _ => act_ret (reply_message 500 "Failed to fetch episodes")).

Definition get_episodes : Endpoint := behind isAuthenticated episodes_list_handler.

(** [GET /api/episodes/:id], lines 558-569. *)
Definition episode_get_handler : Endpoint :=
  fun req =>
    act_try
      (let+ episode := read (getEpisode (req_id (in_req req))) in
       match episode with
       | None => act_ret (reply_message 404 "Episode not found")
       | Some r => act_ret (MkReply 200 (Row (Some r)))
       end)
      (fun _ => act_ret (reply_message 500 "Failed to fetch episode")).

Definition get_episode : Endpoint := behind isAuthenticated episode_get_handler.

(** [DELETE /api/episodes/:id], lines 618-634. *)
Definition episode_delete_handler : Endpoint :=
  fun req =>
    act_try
      (let userId := req_user (in_req req) in
       let+ user := act_getUser userId in
       if no_row user
       then act_ret (reply_message 401 "Authentication required")
       else
         let+ _ := write (deleteEpisode (req_id (in_req req))) in
         act_ret (MkReply 204 NoBody))
      (fun _ => act_ret (reply_message 500 "Failed to delete episode")).

Definition delete_episode : Endpoint := behind isAuthenticated episode_delete_handler.

(** [POST /api/episodes/:id/play], lines 637-645; no middleware. *)
Definition post_episode_play : Endpoint :=
  fun req =>
    act_try
      (let+ _ := write (incrementEpisodePlayCount (req_id (in_req req))) in
       act_ret (MkReply 204 NoBody))
      (fun _ => act_ret (reply_message 500 "Failed to increment play count")).

(** [POST /api/episodes/:id/download], lines 647-655; no middleware. *)
Definition post_episode_download : Endpoint :=
  fun req =>
    act_try
      (let+ _ := write (incrementEpisodeDownloadCount (req_id (in_req req))) in
       act_ret (MkReply 204 NoBody))
      (fun _ => act_ret (reply_message 500 "Failed to increment download count")).

(** [!currentUser || currentUser.role !== "admin"] *)
Definition not_admin (user : option User) : bool :=
  match user with
  | None => true
  | Some u => negb (has_role u "admin")
  end.

(** [["client", "producer", "admin"].includes(role)] *)
Definition valid_role (role : JsVal) : option string :=
  match role with
  | JsStr r =>
      if bool_decide (r ∈ ["client"; "producer"; "admin"]) then Some r else None
  | _ => None
  end.

(** [PUT /api/users/:userId/role], lines 658-687; [req_id] carries the route
    parameter [userId]. *)
Definition user_role_handler : Endpoint :=
  fun req =>
    act_try
      (let currentUserId := req_user (in_req req) in
       let+ currentUser := act_getUser currentUserId in
       if not_admin currentUser
       then act_ret (reply_message 403 "Only admins can change user roles")
       else
         match valid_role (field (req_body (in_req req)) "role") with
         | None => act_ret (reply_message 400 "Invalid role")
         | Some role =>
             let+ targetUser := act_getUser (Some (req_id (in_req req))) in
             match targetUser with
             | None => act_ret (reply_message 404 "User not found")
             | Some target =>
                 let+ updatedUser :=
                   (fun s =>
                      let '(d, u) := upsertUser (MkUser (user_id target) role) (site_db s) in
                      (on_db (fun _ => d) s, Return u)) in
                 act_ret (MkReply 200 (UserRow updatedUser))
             end
         end)
      (fun _ => act_ret (reply_message 500 "Failed to update user role")).

Definition put_user_role : Endpoint := behind isAuthenticated user_role_handler.

(** ** A server state to run these routes on *)

Module Campus.

Definition dana : User := MkUser "u4" "admin".

Definition rows_of_users : list User := [Demo.alice; Demo.bob; Demo.carol; dana].

Definition project (id client producer : string) (created : Z) : JsObject :=
  {[ "id" := JsStr id; "clientId" := JsStr client;
     "assignedProducerId" := JsStr producer; "createdAt" := JsNum created ]}.

Definition show (id projectId : string) (isPublic : bool) (created : Z) : JsObject :=
  {[ "id" := JsStr id; "projectId" := JsStr projectId;
     "isPublic" := JsBool isPublic; "createdAt" := JsNum created ]}.

Definition episode (id seasonId : string) (plays : Z) : JsObject :=
  {[ "id" := JsStr id; "seasonId" := JsStr seasonId; "playCount" := JsNum plays;
     "downloadCount" := JsNum 0; "isPublished" := JsBool true ]}.

Definition podcast (id : string) (isPublished : bool) : JsObject :=
  {[ "id" := JsStr id; "isPublished" := JsBool isPublished; "playCount" := JsNum 7 ]}.

Definition note (id projectId : string) (isInternal : bool) (created : Z) : JsObject :=
  {[ "id" := JsStr id; "projectId" := JsStr projectId;
     "isInternal" := JsBool isInternal; "createdAt" := JsNum created ]}.

Definition database : Database :=
  MkDb rows_of_users
    [ show "s1" "p1" true 10; show "s2" "p1" false 20; show "s3" "p2" true 30 ]
    [ {[ "id" := JsStr "n1"; "showId" := JsStr "s1"; "seasonNumber" := JsNum 1 ]} ]
    [ episode "e1" "n1" 3; episode "e2" "n1" 0 ]
    1700000000.

Definition site : Site :=
  MkSite (MkWorld (Demo.store_with None) database)
    [ project "p1" "u3" "u1" 100; project "p2" "u5" "u2" 200 ]
    [ podcast "c1" true; podcast "c2" false ]
    [ note "m1" "p1" false 1; note "m2" "p1" true 2; note "m3" "p2" false 3 ].

Definition request (caller : option string) (id : string) (body query : JsObject)
    : Inbound :=
  MkInbound (MkRequest "" id caller body) query.

End Campus.

(** * Properties *)

(** ** The resolver *)

Lemma strip_prefix_app (p s : string) : strip_prefix p (p +:+ s) = Some s.
Proof.
  induction p as [|a p IH]; simpl.
  - by destruct s.
  - by rewrite Ascii.eqb_refl.
Qed.

Lemma resolveUpload_well_formed (root url id : string) :
  resolveUpload root url = Return id -> well_formed_identifier id = true.
Proof.
  unfold resolveUpload.
  destruct (strip_prefix root (strip_query url)) as [s|]; [|done].
  destruct (well_formed_identifier s) eqn:Hwf; [|done].
  by intros [= <-].
Qed.

Example resolveUpload_destination :
  resolveUpload Demo.root Demo.destination = Return "uploads/a1".
Proof. reflexivity. Qed.

Example resolveDownload_path :
  resolveDownload "/objects/uploads/a1" = Return "uploads/a1".
Proof. reflexivity. Qed.

Example resolveDownload_traversal :
  resolveDownload "/objects/uploads/../../etc/passwd" = Throw MalformedReference.
Proof. reflexivity. Qed.

Example resolveDownload_other_prefix :
  resolveDownload "/api/objects/a1" = Throw MalformedReference.
Proof. reflexivity. Qed.

(** The identifier an upload destination resolves to is the one the
    download path built from it resolves to (property P4 of the spec). *)
Lemma resolve_round_trip (root url id : string) :
  resolveUpload root url = Return id ->
  resolveDownload (routing_prefix +:+ id) = Return id.
Proof.
  intros H. apply resolveUpload_well_formed in H.
  unfold resolveDownload. by rewrite strip_prefix_app, H.
Qed.

(** ** The evaluator *)

Lemma evaluate_no_record (caller : option string) (requested : ObjectPermission) :
  evaluate caller None requested = false.
Proof. reflexivity. Qed.

Lemma evaluate_owner (r : ACLRecord) (requested : ObjectPermission) :
  evaluate (Some (owner r)) (Some r) requested = true.
Proof. unfold evaluate. by rewrite bool_decide_eq_true_2. Qed.

Lemma evaluate_public_read (caller : option string) (r : ACLRecord) :
  visibility r = public -> evaluate caller (Some r) READ = true.
Proof.
  intros Hv. unfold evaluate. rewrite Hv. simpl.
  by destruct (bool_decide (caller = Some (owner r))).
Qed.

(** Visibility never grants WRITE (property P3 of the spec). *)
Lemma evaluate_write_needs_owner_or_rule (caller : option string) (r : ACLRecord) :
  caller ≠ Some (owner r) ->
  existsb (rule_grants caller WRITE) (rules r) = false ->
  evaluate caller (Some r) WRITE = false.
Proof.
  intros Hne Hr. unfold evaluate.
  rewrite bool_decide_eq_false_2 by done. simpl. by rewrite Hr.
Qed.

(** ** The middleware *)

(** Every request reaches the handler, with the principal it carries or
    with none. *)
Lemma route_passes (h : Handler) (req : Request) :
  route isAuthenticated h req = h req.
Proof. reflexivity. Qed.

(** ** The download route on the service of the spec *)

Ltac run_handler :=
  unfold objects_handler, try_catch, bind, unawaited, ret,
    svc_getObjectEntityFile, svc_canAccessObjectEntity, svc_downloadObject,
    invoke; simpl.

(** The download handler on the service of the spec, case by case. *)
Lemma objects_handler_spec (req : Request) (w : World) :
  objects_handler SpecService.service req w =
    match resolveDownload (req_path req) with
    | Throw e =>
        MkRun [CallGetObjectEntityFile (req_path req)] w
          (Return (SendStatus (if isObjectNotFoundError e then 404 else 500)))
    | Return id =>
        match object_at w id with
        | None =>
            MkRun [CallGetObjectEntityFile (req_path req)] w (Return (SendStatus 404))
        | Some o =>
            if evaluate (req_user req) (acl o) READ
            then MkRun [CallGetObjectEntityFile (req_path req);
                        CallCanAccessObjectEntity id (req_user req) READ;
                        CallDownloadObject id] w (Return (Stream (bytes o)))
            else MkRun [CallGetObjectEntityFile (req_path req);
                        CallCanAccessObjectEntity id (req_user req) READ] w
                   (Return (SendStatus 401))
        end
    end.
Proof.
  run_handler. unfold SpecService.getObjectEntityFile.
  destruct (resolveDownload (req_path req)) as [id|e]; simpl.
  - destruct (object_at w id) as [o|] eqn:Ho; simpl; [|done].
    unfold SpecService.canAccessObjectEntity, SpecService.downloadObject,
      acl_record; simpl.
    rewrite Ho; simpl.
    by destruct (evaluate (req_user req) (acl o) READ); simpl; rewrite ?Ho.
  - by destruct e.
Qed.

(** The scenario of section 8 of the spec: [u1] attaches a private policy
    to the uploaded object and gets [uploads/a1]; [u1] is streamed the
    bytes, [u2] is denied, and so is the anonymous caller; after a second
    attach by [u1], public this time, the anonymous caller is streamed the
    bytes. *)
Example attach_then_download :
  let attach v w :=
    SpecService.trySetObjectEntityAclPolicy (JsStr Demo.destination)
      (MkAclPolicy (Some "u1") v) w in
  let answer caller w :=
    outcome (get_objects SpecService.service (Demo.download caller) w) in
  (attach private Demo.staged).2 = Return "uploads/a1" /\
  answer (Some "u1") (attach private Demo.staged).1 = Return (Stream Demo.audio) /\
  answer (Some "u2") (attach private Demo.staged).1 = Return (SendStatus 401) /\
  answer None (attach private Demo.staged).1 = Return (SendStatus 401) /\
  (attach public (attach private Demo.staged).1).2 = Return "uploads/a1" /\
  answer None (attach public (attach private Demo.staged).1).1 =
    Return (Stream Demo.audio).
Proof. by vm_compute. Qed.

(** C1: an object whose ACL record is public is streamed to every caller of
    the download route, the anonymous one ([None], no authenticated
    principal) included: the handler hands the evaluator the principal as
    it is, absent or not, and rule 3 of the evaluator allows READ.  In
    particular, once an attach with visibility public has succeeded and
    returned [X], the download of [/objects/X] streams the bytes of the
    object, whoever asks. *)
Theorem public_download_streams :
  (forall caller : option string, public_object_streams_to caller) /\
  (forall (w w' : World) (rawPath : JsVal) (p : ObjectAclPolicy) (X : string)
          (req : Request),
      SpecService.trySetObjectEntityAclPolicy rawPath p w = (w', Return X) ->
      acl_visibility p = public ->
      req_path req = routing_prefix +:+ X ->
      exists o, object_at w X = Some o /\
        get_objects SpecService.service req w' =
          MkRun [CallGetObjectEntityFile (req_path req);
                 CallCanAccessObjectEntity X (req_user req) READ;
                 CallDownloadObject X] w' (Return (Stream (bytes o)))).
Proof.
  assert (Hrun : forall (w : World) (req : Request) (id : string) (o : StoredObject)
                        (r : ACLRecord),
    resolveDownload (req_path req) = Return id ->
    object_at w id = Some o ->
    acl o = Some r ->
    visibility r = public ->
    get_objects SpecService.service req w =
      MkRun [CallGetObjectEntityFile (req_path req);
             CallCanAccessObjectEntity id (req_user req) READ;
             CallDownloadObject id] w (Return (Stream (bytes o)))).
  { intros w req id o r Hres Ho Hacl Hvis.
    unfold get_objects. rewrite route_passes, objects_handler_spec.
    by rewrite Hres, Ho, Hacl, (evaluate_public_read _ _ Hvis). }
  split.
  - intros caller w req id o r _ Hres Ho Hacl Hvis.
    by rewrite (Hrun w req id o r Hres Ho Hacl Hvis).
  - intros w w' rawPath p X req Hset Hvis Hpath.
    unfold SpecService.trySetObjectEntityAclPolicy in Hset.
    destruct rawPath as [| |b|n|url]; try discriminate.
    destruct (acl_owner p) as [own|]; [|discriminate].
    unfold attachPolicy in Hset.
    destruct (resolveUpload (store_root (blob w)) url) as [id|e] eqn:Hres;
      [|discriminate].
    destruct (object_at w id) as [o|] eqn:Ho; [|discriminate].
    assert (Hdone : exists rs,
               w' = set_acl w id o (MkRecord own (acl_visibility p) rs) /\ X = id).
    { destruct (acl o) as [r|].
      - destruct (bool_decide (owner r = p_owner _)); [|discriminate].
        injection Hset as <- <-. by exists (rules r).
      - injection Hset as <- <-. by exists []. }
    destruct Hdone as (rs & -> & ->).
    exists o. split; [done|].
    apply (Hrun _ req id
             (MkObject (bytes o) (Some (MkRecord own (acl_visibility p) rs)))
             (MkRecord own (acl_visibility p) rs)); [| |done|done].
    + rewrite Hpath. by eapply resolve_round_trip.
    + unfold object_at, set_acl. simpl. by rewrite lookup_insert_eq.
Qed.

Lemma public_download_streams_witness :
  outcome (get_objects SpecService.service (Demo.download None)
             (Demo.policed public)) = Return (Stream Demo.audio).
Proof.
  exact (proj1 public_download_streams None (Demo.policed public)
           (Demo.download None) "uploads/a1"
           (MkObject Demo.audio (Some (MkRecord "u1" public [])))
           (MkRecord "u1" public [])
           eq_refl eq_refl eq_refl eq_refl eq_refl).
Defined.

(** ** The download route on any service *)

Section DownloadAnyService.

Context (svc : ObjectStorageService).

Lemma objects_handler_unresolved (req : Request) (w w1 : World) (e : Exn) :
  getObjectEntityFile svc (req_path req) w = (w1, Throw e) ->
  objects_handler svc req w =
    MkRun [CallGetObjectEntityFile (req_path req)] w1
      (Return (SendStatus (if isObjectNotFoundError e then 404 else 500))).
Proof. intros H. run_handler. rewrite H. simpl. by destruct e. Qed.

Lemma objects_handler_denied (req : Request) (w w1 w2 : World) (file : string) :
  getObjectEntityFile svc (req_path req) w = (w1, Return file) ->
  canAccessObjectEntity svc file (req_user req) READ w1 = (w2, Return false) ->
  objects_handler svc req w =
    MkRun [CallGetObjectEntityFile (req_path req);
           CallCanAccessObjectEntity file (req_user req) READ] w2
      (Return (SendStatus 401)).
Proof. intros H1 H2. run_handler. rewrite H1. simpl. rewrite H2. reflexivity. Qed.

(** The calls of the download route: the three reads of the service. *)
Lemma get_objects_reads_only (req : Request) (w : World) :
  forallb read_only_call (trace (get_objects svc req w)) = true.
Proof.
  unfold get_objects. rewrite route_passes. run_handler.
  destruct (getObjectEntityFile svc (req_path req) w) as [w1 [file|e]]; simpl.
  - destruct (canAccessObjectEntity svc file (req_user req) READ w1)
      as [w2 [[|]|e]]; simpl.
    + by destruct (downloadObject svc file w2) as [w3 [r|e]].
    + reflexivity.
    + by destruct e.
  - by destruct e.
Qed.

End DownloadAnyService.

(** C2: an identifier without an ACL record is denied READ and WRITE for
    every caller, the anonymous one included, and the download of the object
    it names never streams bytes. *)
Theorem no_record_denies (w : World) (req : Request) (id : string)
    (caller : option string) (requested : ObjectPermission) :
  resolveDownload (req_path req) = Return id ->
  acl_record w id = None ->
  evaluate caller (acl_record w id) requested = false /\
  forall b, outcome (get_objects SpecService.service req w) <> Return (Stream b).
Proof.
  intros Hres Hacl. split.
  - rewrite Hacl. apply evaluate_no_record.
  - intros b. unfold get_objects.
    rewrite route_passes, objects_handler_spec, Hres.
    unfold acl_record in Hacl.
    destruct (object_at w id) as [o|]; simpl in *; [|done].
    by rewrite Hacl.
Qed.

Lemma no_record_denies_witness :
  evaluate None (acl_record Demo.staged "uploads/a1") WRITE = false /\
  forall b, outcome (get_objects SpecService.service (Demo.download (Some "u1"))
                       Demo.staged) <> Return (Stream b).
Proof.
  exact (no_record_denies Demo.staged (Demo.download (Some "u1")) "uploads/a1"
           None WRITE eq_refl eq_refl).
Defined.

(** C5: when the READ check of the download route denies the caller, the
    response is a 401, nothing is streamed and [downloadObject] is not
    called. *)
Theorem denied_download_is_401 (svc : ObjectStorageService) (req : Request)
    (w w1 w2 : World) (file : string) :
  getObjectEntityFile svc (req_path req) w = (w1, Return file) ->
  canAccessObjectEntity svc file (req_user req) READ w1 = (w2, Return false) ->
  exists r,
    outcome (get_objects svc req w) = Return r /\
    status_of r = Some 401 /\
    streamed r = None /\
    download_calls (trace (get_objects svc req w)) = [].
Proof.
  intros Hfile Hdeny. unfold get_objects.
  rewrite route_passes, (objects_handler_denied svc req w w1 w2 file Hfile Hdeny).
  by eexists.
Qed.

Lemma denied_download_is_401_witness :
  exists r,
    outcome (get_objects SpecService.service (Demo.download (Some "u2"))
               (Demo.policed private)) = Return r /\
    status_of r = Some 401 /\
    streamed r = None /\
    download_calls (trace (get_objects SpecService.service
                             (Demo.download (Some "u2")) (Demo.policed private))) = [].
Proof.
  exact (denied_download_is_401 SpecService.service (Demo.download (Some "u2"))
           (Demo.policed private) (Demo.policed private) (Demo.policed private)
           "uploads/a1" eq_refl eq_refl).
Defined.

(** A denied download on the service of the spec, in terms of the
    evaluator. *)
Lemma denied_download_spec (req : Request) (w : World) (id : string) (o : StoredObject) :
  resolveDownload (req_path req) = Return id ->
  object_at w id = Some o ->
  evaluate (req_user req) (acl o) READ = false ->
  exists r,
    outcome (get_objects SpecService.service req w) = Return r /\
    status_of r = Some 401 /\ streamed r = None.
Proof.
  intros Hres Ho Hdeny. unfold get_objects.
  rewrite route_passes, objects_handler_spec, Hres, Ho, Hdeny.
  by eexists.
Qed.

(** What the resolver throws is a MalformedReference. *)
Lemma resolveDownload_throws (path : string) (e : Exn) :
  resolveDownload path = Throw e -> e = MalformedReference.
Proof.
  unfold resolveDownload.
  destruct (strip_prefix routing_prefix path) as [s|];
    [destruct (well_formed_identifier s)|]; congruence.
Qed.

(** C6: a download whose path does not resolve fails in the resolver with
    MalformedReference, and the route answers it 404, the answer it gives
    for an object the store does not hold, after the one call of
    [getObjectEntityFile]; the world is left as it was.  On any service, a
    failure of [getObjectEntityFile] is answered 404 when it is an
    [ObjectNotFoundError], which a malformed reference is, and 500
    otherwise. *)
Theorem unresolved_download_status :
  unresolved_is_not_found /\
  (forall (req : Request) (w : World) (e : Exn),
      resolveDownload (req_path req) = Throw e ->
      e = MalformedReference /\
      get_objects SpecService.service req w =
        MkRun [CallGetObjectEntityFile (req_path req)] w (Return (SendStatus 404))) /\
  (forall (svc : ObjectStorageService) (req : Request) (w w1 : World) (e : Exn),
      getObjectEntityFile svc (req_path req) w = (w1, Throw e) ->
      get_objects svc req w =
        MkRun [CallGetObjectEntityFile (req_path req)] w1
          (Return (SendStatus (if isObjectNotFoundError e then 404 else 500)))).
Proof.
  assert (Hspec : forall (req : Request) (w : World) (e : Exn),
      resolveDownload (req_path req) = Throw e ->
      e = MalformedReference /\
      get_objects SpecService.service req w =
        MkRun [CallGetObjectEntityFile (req_path req)] w (Return (SendStatus 404))).
  { intros req w e Hres.
    pose proof (resolveDownload_throws _ _ Hres) as ->.
    split; [done|]. unfold get_objects.
    by rewrite route_passes, objects_handler_spec, Hres. }
  split; [|split; [exact Hspec|]].
  - intros w req e Hres. destruct (Hspec req w e Hres) as [-> Hrun].
    split; [done|]. rewrite Hrun. by eexists.
  - intros svc req w w1 e Hget. unfold get_objects.
    by rewrite route_passes, (objects_handler_unresolved svc req w w1 e Hget).
Qed.

Lemma unresolved_download_status_witness :
  MalformedReference = MalformedReference /\
  get_objects SpecService.service
      (MkRequest "/objects/uploads/../../etc/passwd" "" None ∅) Demo.staged =
    MkRun [CallGetObjectEntityFile "/objects/uploads/../../etc/passwd"] Demo.staged
      (Return (SendStatus 404)).
Proof.
  exact (proj1 (proj2 unresolved_download_status)
           (MkRequest "/objects/uploads/../../etc/passwd" "" None ∅) Demo.staged
           MalformedReference eq_refl).
Defined.

Lemma spec_service_reads : reads_leave_world SpecService.service.
Proof.
  repeat split; simpl.
  - intros path w. unfold SpecService.getObjectEntityFile.
    destruct (resolveDownload path) as [id|e]; [|done].
    by destruct (object_at w id).
  - intros file w. unfold SpecService.downloadObject.
    by destruct (object_at w file).
Qed.

Lemma get_objects_final (svc : ObjectStorageService) (req : Request) (w : World) :
  reads_leave_world svc -> final (get_objects svc req w) = w.
Proof.
  intros (Hget & Hcan & Hdown).
  unfold get_objects. rewrite route_passes. run_handler.
  specialize (Hget (req_path req) w).
  destruct (getObjectEntityFile svc (req_path req) w) as [w1 [file|e]];
    simpl in *; subst w1.
  - specialize (Hcan file (req_user req) READ w).
    destruct (canAccessObjectEntity svc file (req_user req) READ w)
      as [w2 [[|]|e]]; simpl in *; subst w2.
    + specialize (Hdown file w).
      by destruct (downloadObject svc file w) as [w3 [r|e]]; simpl in *; subst w3.
    + reflexivity.
    + by destruct e.
  - by destruct e.
Qed.

(** C7: the download route changes nothing, whatever the request and its
    outcome.  The only calls it makes are [getObjectEntityFile],
    [canAccessObjectEntity] and [downloadObject]; with these three reading
    only, as they do on the service of the spec, the world after the
    request, blob store, ACL records and database, is the world before. *)
Theorem download_changes_nothing (req : Request) (w : World) :
  (forall svc : ObjectStorageService,
      forallb read_only_call (trace (get_objects svc req w)) = true) /\
  (forall svc : ObjectStorageService,
      reads_leave_world svc -> final (get_objects svc req w) = w) /\
  final (get_objects SpecService.service req w) = w.
Proof.
  split; [intros svc; apply get_objects_reads_only|].
  split; [intros svc; apply get_objects_final|].
  apply get_objects_final, spec_service_reads.
Qed.

Lemma download_changes_nothing_witness :
  final (get_objects SpecService.service (Demo.download (Some "u2"))
           (Demo.policed public)) = Demo.policed public.
Proof.
  exact (proj1 (proj2 (download_changes_nothing (Demo.download (Some "u2"))
                         (Demo.policed public)))
           SpecService.service spec_service_reads).
Defined.

(** ** The project audio route *)

Ltac run_audio :=
  unfold project_audio_handler, try_catch, bind, claims_sub, storage.getUser,
    svc_trySetObjectEntityAclPolicy, invoke, ret, throw;
  cbn [trace final outcome].

Section AudioAnyService.

Context (svc : ObjectStorageService).


(** Past the guards the handler makes one attach call, with the caller as
    owner and visibility private, and answers by its outcome. *)
Lemma project_audio_attaches (req : Request) (uid : string) (w : World) :
  req_user req = Some uid ->
  truthy (field (req_body req) "audioFileUrl") = true ->
  is_client (getUser (Some uid) (db w)) = false ->
  project_audio_handler svc req w =
    let call := CallTrySetObjectEntityAclPolicy (field (req_body req) "audioFileUrl")
                  (MkAclPolicy (Some uid) private) in
    let '(w', o) := trySetObjectEntityAclPolicy svc (field (req_body req) "audioFileUrl")
                      (MkAclPolicy (Some uid) private) w in
    MkRun [CallGetUser (Some uid); call] w'
      (Return match o with
              | Return objectPath => Json 200 (Some {[ "objectPath" := JsStr objectPath ]})
              | Throw _ => message 500 "error" "Internal server error"
              end).
Proof.
  intros Hu Hurl Hrole. run_audio. rewrite Hu. cbn [trace final outcome].
  rewrite Hurl, Hrole. cbn [negb].
  by destruct (trySetObjectEntityAclPolicy svc _ _ w) as [w' [p|e]].
Qed.

End AudioAnyService.



(** ** Attach on the service of the spec *)

Lemma resolveUpload_nonempty (root id : string) :
  resolveUpload root "" <> Return id.
Proof. unfold resolveUpload. by destruct root. Qed.

Lemma resolveUpload_truthy (root url id : string) :
  resolveUpload root url = Return id -> truthy (JsStr url) = true.
Proof.
  intros H. destruct url; [|reflexivity].
  by apply resolveUpload_nonempty in H.
Qed.

Lemma acl_record_set_acl (w : World) (id : string) (o : StoredObject) (r : ACLRecord) :
  acl_record (set_acl w id o r) id = Some r.
Proof. unfold acl_record, object_at, set_acl. simpl. by rewrite lookup_insert_eq. Qed.

(** An attach by the owner, or on an object without a record, succeeds:
    it returns the identifier and the record carries the policy. *)
Lemma attachPolicy_succeeds (w : World) (url id : string) (o : StoredObject) (p : Policy) :
  resolveUpload (store_root (blob w)) url = Return id ->
  object_at w id = Some o ->
  (forall r, acl o = Some r -> owner r = p_owner p) ->
  exists rs,
    attachPolicy url p w =
      (set_acl w id o (MkRecord (p_owner p) (p_visibility p) rs), Return id).
Proof.
  intros Hres Ho Hown. unfold attachPolicy. rewrite Hres, Ho.
  destruct (acl o) as [r|].
  - rewrite bool_decide_eq_true_2 by auto. by exists (rules r).
  - by exists [].
Qed.

Lemma attachPolicy_conflict (w : World) (url id : string) (o : StoredObject)
    (r : ACLRecord) (p : Policy) :
  resolveUpload (store_root (blob w)) url = Return id ->
  object_at w id = Some o ->
  acl o = Some r ->
  owner r <> p_owner p ->
  attachPolicy url p w = (w, Throw PolicyConflict).
Proof.
  intros Hres Ho Hacl Hne. unfold attachPolicy.
  by rewrite Hres, Ho, Hacl, bool_decide_eq_false_2.
Qed.

Lemma acl_record_set_acl_ne (w : World) (id id' : string) (o : StoredObject)
    (r : ACLRecord) :
  id' <> id -> acl_record (set_acl w id' o r) id = acl_record w id.
Proof.
  intros Hne. unfold acl_record, object_at, set_acl. simpl.
  by rewrite lookup_insert_ne.
Qed.

(** The ACL record of an identifier is a matter of the blob store alone. *)
Lemma acl_record_blob (w w' : World) (id : string) :
  blob w = blob w' -> acl_record w id = acl_record w' id.
Proof. unfold acl_record, object_at. by intros ->. Qed.

Lemma spec_attach_succeeds (w : World) (url id uid : string) (o : StoredObject)
    (v : Visibility) :
  resolveUpload (store_root (blob w)) url = Return id ->
  object_at w id = Some o ->
  (forall r, acl o = Some r -> owner r = uid) ->
  exists rs,
    SpecService.trySetObjectEntityAclPolicy (JsStr url) (MkAclPolicy (Some uid) v) w =
      (set_acl w id o (MkRecord uid v rs), Return id).
Proof.
  intros Hres Ho Hown. unfold SpecService.trySetObjectEntityAclPolicy. simpl.
  by apply (attachPolicy_succeeds w url id o (MkPolicy uid v)).
Qed.

(** An attach of the service either throws and leaves the world, or
    writes the record of the object its reference resolves to. *)
Lemma spec_attach_inv (rawPath : JsVal) (p : ObjectAclPolicy) (w w' : World)
    (out : Outcome string) :
  SpecService.trySetObjectEntityAclPolicy rawPath p w = (w', out) ->
  (w' = w /\ exists e, out = Throw e) \/
  (exists (url own id : string) (o : StoredObject) (rs : list AclRule),
      rawPath = JsStr url /\ acl_owner p = Some own /\
      resolveUpload (store_root (blob w)) url = Return id /\
      object_at w id = Some o /\
      w' = set_acl w id o (MkRecord own (acl_visibility p) rs) /\
      out = Return id).
Proof.
  unfold SpecService.trySetObjectEntityAclPolicy.
  destruct rawPath as [| |b|n|url];
    try (intros [= <- <-]; left; split; [done|by eexists]).
  destruct (acl_owner p) as [own|];
    [|intros [= <- <-]; left; split; [done|by eexists]].
  unfold attachPolicy.
  destruct (resolveUpload (store_root (blob w)) url) as [id|e] eqn:Hres;
    [|intros [= <- <-]; left; split; [done|by eexists]].
  destruct (object_at w id) as [o|] eqn:Ho;
    [|intros [= <- <-]; left; split; [done|by eexists]].
  destruct (acl o) as [r|].
  - destruct (bool_decide (owner r = p_owner _)).
    + intros [= <- <-]. right. by exists url, own, id, o, (rules r).
    + intros [= <- <-]. left. split; [done|by eexists].
  - intros [= <- <-]. right. by exists url, own, id, o, [].
Qed.

Lemma resolves_to_truthy (root : string) (rawPath : JsVal) (id : string) :
  resolves_to root rawPath id = true -> truthy rawPath = true.
Proof.
  destruct rawPath as [| |b|n|url]; try done. simpl.
  destruct (resolveUpload root url) as [id'|e] eqn:Hres; [|done].
  intros _. by eapply resolveUpload_truthy.
Qed.

(** The record of an object of the caller after one more attach by the
    caller: the owner and the rules stay, and the visibility is the new
    policy's when the attach names this object. *)
Lemma record_after_attach (rawPath : JsVal) (uid id : string) (v v0 : Visibility)
    (rs : list AclRule) (w : World) :
  acl_record w id = Some (MkRecord uid v0 rs) ->
  acl_record
      (SpecService.trySetObjectEntityAclPolicy rawPath (MkAclPolicy (Some uid) v) w).1
      id =
    Some (MkRecord uid (if resolves_to (store_root (blob w)) rawPath id then v else v0) rs).
Proof.
  intros Hrec. unfold SpecService.trySetObjectEntityAclPolicy, resolves_to.
  destruct rawPath as [| |b|n|url]; try done. simpl.
  unfold attachPolicy.
  destruct (resolveUpload (store_root (blob w)) url) as [id'|e]; [|done].
  destruct (String.eqb_spec id' id) as [->|Hne].
  - unfold acl_record in Hrec.
    destruct (object_at w id) as [o|]; [|done]. simpl in Hrec. rewrite Hrec.
    simpl. rewrite bool_decide_eq_true_2 by done. simpl.
    apply acl_record_set_acl.
  - destruct (object_at w id') as [o'|]; [|done].
    destruct (acl o') as [r'|]; [destruct (bool_decide _)|]; simpl;
      by rewrite ?acl_record_set_acl_ne.
Qed.

(** An attach by the caller leaves every object of the caller there, and
    the caller's. *)
Lemma attachable_after_attach (rawPath : JsVal) (uid id : string) (v : Visibility)
    (o : StoredObject) (w : World) :
  object_at w id = Some o ->
  (forall r, acl o = Some r -> owner r = uid) ->
  exists o1,
    object_at
        (SpecService.trySetObjectEntityAclPolicy rawPath (MkAclPolicy (Some uid) v) w).1
        id = Some o1 /\
    (forall r, acl o1 = Some r -> owner r = uid).
Proof.
  intros Ho Hown.
  destruct (SpecService.trySetObjectEntityAclPolicy rawPath (MkAclPolicy (Some uid) v) w)
    as [w' out] eqn:Hset.
  apply spec_attach_inv in Hset as
    [[-> _]|(url & own & id' & o' & rs & _ & [= <-] & _ & _ & -> & _)]; simpl.
  - by exists o.
  - unfold object_at, set_acl. simpl.
    destruct (decide (id' = id)) as [->|Hne].
    + rewrite lookup_insert_eq. eexists. split; [done|]. by intros r [= <-].
    + rewrite lookup_insert_ne by done. by exists o.
Qed.

Lemma store_root_after_attach (rawPath : JsVal) (p : ObjectAclPolicy) (w : World) :
  store_root (blob (SpecService.trySetObjectEntityAclPolicy rawPath p w).1) =
    store_root (blob w).
Proof.
  destruct (SpecService.trySetObjectEntityAclPolicy rawPath p w) as [w' out] eqn:Hset.
  by apply spec_attach_inv in Hset as
    [[-> _]|(url & own & id' & o' & rs & _ & _ & _ & _ & -> & _)].
Qed.

(** C3: an attach on an identifier whose ACL record has another owner than
    the policy's fails with PolicyConflict and leaves the world, the record
    and its owner included, as it was; the project audio route answers such
    an attach 500. *)
Theorem attach_by_other_owner_conflicts (w : World) (url id caller : string)
    (o : StoredObject) (r : ACLRecord) (p : ObjectAclPolicy) :
  resolveUpload (store_root (blob w)) url = Return id ->
  object_at w id = Some o ->
  acl o = Some r ->
  acl_owner p = Some caller ->
  owner r <> caller ->
  SpecService.trySetObjectEntityAclPolicy (JsStr url) p w = (w, Throw PolicyConflict) /\
  acl_record (fst (SpecService.trySetObjectEntityAclPolicy (JsStr url) p w)) id = Some r /\
  forall req : Request,
    req_user req = Some caller ->
    field (req_body req) "audioFileUrl" = JsStr url ->
    is_client (getUser (Some caller) (db w)) = false ->
    final (put_project_audio SpecService.service req w) = w /\
    outcome (put_project_audio SpecService.service req w) =
      Return (message 500 "error" "Internal server error").
Proof.
  intros Hres Ho Hacl Hown Hne.
  assert (Hthrow : forall v,
    SpecService.trySetObjectEntityAclPolicy (JsStr url) (MkAclPolicy (Some caller) v) w
      = (w, Throw PolicyConflict)).
  { intros v. unfold SpecService.trySetObjectEntityAclPolicy. simpl.
    by apply (attachPolicy_conflict w url id o r). }
  assert (Hp : SpecService.trySetObjectEntityAclPolicy (JsStr url) p w
               = (w, Throw PolicyConflict)).
  { destruct p as [own v]. simpl in Hown. subst own. apply Hthrow. }
  split; [exact Hp|]. split.
  - rewrite Hp. simpl. unfold acl_record. by rewrite Ho.
  - intros req Hu Hbody Hrole. unfold put_project_audio.
    rewrite route_passes.
    rewrite (project_audio_attaches SpecService.service req caller w Hu);
      [|rewrite Hbody; by eapply resolveUpload_truthy|done].
    rewrite Hbody. cbn [trySetObjectEntityAclPolicy SpecService.service].
    by rewrite Hthrow.
Qed.

Lemma attach_by_other_owner_conflicts_witness :
  SpecService.trySetObjectEntityAclPolicy (JsStr Demo.destination)
      (MkAclPolicy (Some "u2") public) (Demo.policed private)
    = (Demo.policed private, Throw PolicyConflict) /\
  acl_record (fst (SpecService.trySetObjectEntityAclPolicy (JsStr Demo.destination)
      (MkAclPolicy (Some "u2") public) (Demo.policed private))) "uploads/a1"
    = Some (MkRecord "u1" private []) /\
  forall req : Request,
    req_user req = Some "u2" ->
    field (req_body req) "audioFileUrl" = JsStr Demo.destination ->
    is_client (getUser (Some "u2") (db (Demo.policed private))) = false ->
    final (put_project_audio SpecService.service req (Demo.policed private))
      = Demo.policed private /\
    outcome (put_project_audio SpecService.service req (Demo.policed private)) =
      Return (message 500 "error" "Internal server error").
Proof.
  apply (attach_by_other_owner_conflicts (Demo.policed private) Demo.destination
           "uploads/a1" "u2"
           (MkObject Demo.audio (Some (MkRecord "u1" private [])))
           (MkRecord "u1" private []) (MkAclPolicy (Some "u2") public));
    try reflexivity.
  discriminate.
Defined.

(** C4, counterexample: the request succeeds and returns [uploads/a1], and
    the record attached is owned by the caller [u1] and private: the owner
    and the visibility of the body are not read. *)
Lemma supplied_policy_ignored : ~ attaches_supplied_policy.
Proof.
  intros H.
  destruct (H Demo.staged supplied_policy_request Demo.destination "u2"
              "uploads/a1" public eq_refl eq_refl eq_refl eq_refl) as [rs Hrs].
  vm_compute in Hrs. discriminate Hrs.
Qed.

(** C4, amended: the PUT operation of the project audio route reads the raw
    reference from the body and nothing else; past its guards it makes one
    attach call whose policy has the authenticated caller as owner and
    visibility private, and answers 200 with the identifier the attach
    returns; on the service of the spec the record of that identifier then
    has the caller as owner and is private. *)
Theorem audio_attach_policy :
  (forall (svc : ObjectStorageService) (req : Request) (uid : string) (w : World),
      req_user req = Some uid ->
      truthy (field (req_body req) "audioFileUrl") = true ->
      is_client (getUser (Some uid) (db w)) = false ->
      attach_calls (trace (put_project_audio svc req w)) =
        [(field (req_body req) "audioFileUrl", MkAclPolicy (Some uid) private)] /\
      forall (w' : World) (objectPath : string),
        trySetObjectEntityAclPolicy svc (field (req_body req) "audioFileUrl")
          (MkAclPolicy (Some uid) private) w = (w', Return objectPath) ->
        final (put_project_audio svc req w) = w' /\
        outcome (put_project_audio svc req w) =
          Return (Json 200 (Some {[ "objectPath" := JsStr objectPath ]}))) /\
  (forall (req : Request) (uid url id : string) (o : StoredObject) (w : World),
      req_user req = Some uid ->
      field (req_body req) "audioFileUrl" = JsStr url ->
      is_client (getUser (Some uid) (db w)) = false ->
      resolveUpload (store_root (blob w)) url = Return id ->
      object_at w id = Some o ->
      (forall r, acl o = Some r -> owner r = uid) ->
      outcome (put_project_audio SpecService.service req w) =
        Return (Json 200 (Some {[ "objectPath" := JsStr id ]})) /\
      exists rs,
        acl_record (final (put_project_audio SpecService.service req w)) id =
          Some (MkRecord uid private rs)).
Proof.
  assert (Hany : forall (svc : ObjectStorageService) (req : Request) (uid : string)
                        (w : World),
      req_user req = Some uid ->
      truthy (field (req_body req) "audioFileUrl") = true ->
      is_client (getUser (Some uid) (db w)) = false ->
      attach_calls (trace (put_project_audio svc req w)) =
        [(field (req_body req) "audioFileUrl", MkAclPolicy (Some uid) private)] /\
      forall (w' : World) (objectPath : string),
        trySetObjectEntityAclPolicy svc (field (req_body req) "audioFileUrl")
          (MkAclPolicy (Some uid) private) w = (w', Return objectPath) ->
        final (put_project_audio svc req w) = w' /\
        outcome (put_project_audio svc req w) =
          Return (Json 200 (Some {[ "objectPath" := JsStr objectPath ]}))).
  { intros svc req uid w Hu Hurl Hrole. unfold put_project_audio.
    rewrite route_passes,
      (project_audio_attaches svc req uid w Hu Hurl Hrole).
    cbv zeta. split.
    - by destruct (trySetObjectEntityAclPolicy svc _ _ w).
    - intros w' objectPath ->. by split. }
  split; [exact Hany|].
  intros req uid url id o w Hu Hbody Hrole Hres Ho Hown.
  destruct (attachPolicy_succeeds w url id o (MkPolicy uid private) Hres Ho Hown)
    as [rs Hrs].
  assert (Hurl : truthy (field (req_body req) "audioFileUrl") = true).
  { rewrite Hbody. by eapply resolveUpload_truthy. }
  destruct (Hany SpecService.service req uid w Hu Hurl Hrole) as [_ Hrun].
  destruct (Hrun (set_acl w id o (MkRecord uid private rs)) id) as [Hfin Hout].
  { rewrite Hbody. exact Hrs. }
  split; [exact Hout|].
  exists rs. rewrite Hfin. apply acl_record_set_acl.
Qed.

Lemma audio_attach_policy_witness :
  outcome (put_project_audio SpecService.service supplied_policy_request Demo.staged) =
    Return (Json 200 (Some {[ "objectPath" := JsStr "uploads/a1" ]})) /\
  exists rs,
    acl_record (final (put_project_audio SpecService.service supplied_policy_request
                         Demo.staged)) "uploads/a1" =
      Some (MkRecord "u1" private rs).
Proof.
  apply (proj2 audio_attach_policy supplied_policy_request "u1" Demo.destination
           "uploads/a1" (MkObject Demo.audio None) Demo.staged);
    try reflexivity.
  intros r Hr. discriminate Hr.
Defined.

(** ** The update routes of shows, seasons and episodes *)

(** Storing the audio path does not touch the cover field of the update. *)
Lemma cover_field_after_audio (updates : JsObject) (audioPath : string) :
  field (delete "audioFileURL" (<["audioFileUrl" := JsStr audioPath]> updates))
    "coverImageURL" = field updates "coverImageURL".
Proof. unfold field. by rewrite lookup_delete_ne, lookup_insert_ne. Qed.

Ltac run_update :=
  unfold show_update_handler, season_update_handler, episode_update_handler,
    attach_cover, attach_audio;
  unfold try_catch, bind, storage.getUser, storage.updateShow, storage.updateSeason,
    storage.updateEpisode, svc_trySetObjectEntityAclPolicy, invoke, ret;
  cbn [trace final outcome].

(** One call of a collaborator: the cases of what it returns. *)
Ltac run_call :=
  match goal with
  | |- context [let '(_, _) := ?op in _] =>
      destruct op as [? [?|?]]; cbn [trace final outcome snd]
  end.

(** The three updates write the database, not the blob store. *)
Lemma updateShow_blob (id : string) (updates : JsObject) (w : World) :
  blob (updateShow id updates w).1 = blob w.
Proof. unfold updateShow. by destruct (update_where _ _ _ _). Qed.

Lemma updateSeason_blob (id : string) (updates : JsObject) (w : World) :
  blob (updateSeason id updates w).1 = blob w.
Proof. unfold updateSeason. by destruct (update_where _ _ _ _). Qed.

Lemma updateEpisode_blob (id : string) (updates : JsObject) (w : World) :
  blob (updateEpisode id updates w).1 = blob w.
Proof. unfold updateEpisode. by destruct (update_where _ _ _ _). Qed.

(** The call of [storage.updateShow], [updateSeason] or [updateEpisode]
    that ends an update: whatever it returns, the blob store is the one it
    was called on. *)
Ltac run_storage :=
  match goal with
  | |- context [let '(_, _) := updateShow ?id ?u ?w in _] =>
      let H := fresh "Hblob" in
      pose proof (updateShow_blob id u w) as H;
      destruct (updateShow id u w) as [? [?|?]]
  | |- context [let '(_, _) := updateSeason ?id ?u ?w in _] =>
      let H := fresh "Hblob" in
      pose proof (updateSeason_blob id u w) as H;
      destruct (updateSeason id u w) as [? [?|?]]
  | |- context [let '(_, _) := updateEpisode ?id ?u ?w in _] =>
      let H := fresh "Hblob" in
      pose proof (updateEpisode_blob id u w) as H;
      destruct (updateEpisode id u w) as [? [?|?]]
  end;
  cbn [trace final outcome fst snd] in *.

Section UpdateAnyService.

Context (svc : ObjectStorageService).
Context (req : Request) (uid : string) (u : User) (w : World).
Context (Hcaller : req_user req = Some uid).
Context (Huser : getUser (Some uid) (db w) = Some u).

Let cover : JsVal := field (req_body req) "coverImageURL".
Let audio : JsVal := field (req_body req) "audioFileURL".

(** The attach calls of the show update. *)
Lemma show_update_attach_calls :
  attach_calls (trace (put_show svc req w)) =
    if truthy cover then [(cover, MkAclPolicy (Some uid) public)] else [].
Proof.
  unfold put_show. rewrite route_passes.
  run_update. rewrite Hcaller, Huser. cbn [no_row trace final outcome].
  subst cover. destruct (truthy (field (req_body req) "coverImageURL"));
    cbn [trace final outcome]; repeat run_call; reflexivity.
Qed.

(** The attach calls of the season update. *)
Lemma season_update_attach_calls :
  attach_calls (trace (put_season svc req w)) =
    if truthy cover then [(cover, MkAclPolicy (Some uid) public)] else [].
Proof.
  unfold put_season. rewrite route_passes.
  run_update. rewrite Hcaller, Huser. cbn [no_row trace final outcome].
  subst cover. destruct (truthy (field (req_body req) "coverImageURL"));
    cbn [trace final outcome]; repeat run_call; reflexivity.
Qed.

(** The attach calls of the episode update: the audio attach, when the
    update has an [audioFileURL], then the cover attach, when it has a
    [coverImageURL] and the audio attach did not throw. *)
Lemma episode_update_attach_calls :
  attach_calls (trace (put_episode svc req w)) =
    let audio_policy :=
      MkAclPolicy (Some uid)
        (if truthy (field (req_body req) "isPublished") then public else private) in
    let cover_calls :=
      if truthy cover then [(cover, MkAclPolicy (Some uid) public)] else [] in
    if truthy audio then
      (audio, audio_policy) ::
        match (trySetObjectEntityAclPolicy svc audio audio_policy w).2 with
        | Return _ => cover_calls
        | Throw _ => []
        end
    else cover_calls.
Proof.
  unfold put_episode. rewrite route_passes.
  run_update. rewrite Hcaller, Huser. cbn [no_row trace final outcome].
  subst cover audio. unfold published_visibility. cbv zeta.
  destruct (truthy (field (req_body req) "audioFileURL"));
    cbn [trace final outcome].
  - run_call; [|reflexivity].
    rewrite cover_field_after_audio.
    destruct (truthy (field (req_body req) "coverImageURL"));
      cbn [trace final outcome]; repeat run_call; reflexivity.
  - destruct (truthy (field (req_body req) "coverImageURL"));
      cbn [trace final outcome]; repeat run_call; reflexivity.
Qed.

(** The blob store after the show update is the one its attach call left. *)
Lemma show_update_blob :
  blob (final (put_show svc req w)) =
    if truthy cover
    then blob (trySetObjectEntityAclPolicy svc cover (MkAclPolicy (Some uid) public) w).1
    else blob w.
Proof.
  unfold put_show. rewrite route_passes.
  run_update. rewrite Hcaller, Huser. cbn [no_row trace final outcome].
  subst cover. destruct (truthy (field (req_body req) "coverImageURL"));
    cbn [trace final outcome].
  - destruct (trySetObjectEntityAclPolicy svc _ _ w) as [w1 [p|e]];
      cbn [trace final outcome fst]; [|reflexivity].
    by run_storage.
  - by run_storage.
Qed.

Lemma season_update_blob :
  blob (final (put_season svc req w)) =
    if truthy cover
    then blob (trySetObjectEntityAclPolicy svc cover (MkAclPolicy (Some uid) public) w).1
    else blob w.
Proof.
  unfold put_season. rewrite route_passes.
  run_update. rewrite Hcaller, Huser. cbn [no_row trace final outcome].
  subst cover. destruct (truthy (field (req_body req) "coverImageURL"));
    cbn [trace final outcome].
  - destruct (trySetObjectEntityAclPolicy svc _ _ w) as [w1 [p|e]];
      cbn [trace final outcome fst]; [|reflexivity].
    by run_storage.
  - by run_storage.
Qed.

(** The blob store after the episode update is the one its attach calls
    left, each run on the world the one before it returned. *)
Lemma episode_update_blob :
  blob (final (put_episode svc req w)) =
    blob (attaches_of_episode_update svc (Some uid) (req_body req) w).
Proof.
  unfold put_episode. rewrite route_passes.
  run_update. rewrite Hcaller, Huser. cbn [no_row trace final outcome].
  unfold attaches_of_episode_update, published_visibility.
  destruct (truthy (field (req_body req) "audioFileURL"));
    cbn [trace final outcome].
  - destruct (trySetObjectEntityAclPolicy svc (field (req_body req) "audioFileURL") _ w)
      as [w1 [p|e]]; cbn [trace final outcome fst]; [|reflexivity].
    rewrite cover_field_after_audio.
    destruct (truthy (field (req_body req) "coverImageURL"));
      cbn [trace final outcome].
    + destruct (trySetObjectEntityAclPolicy svc _ _ w1) as [w2 [p2|e2]];
        cbn [trace final outcome fst]; [|reflexivity].
      by run_storage.
    + by run_storage.
  - destruct (truthy (field (req_body req) "coverImageURL"));
      cbn [trace final outcome].
    + destruct (trySetObjectEntityAclPolicy svc _ _ w) as [w2 [p2|e2]];
        cbn [trace final outcome fst]; [|reflexivity].
      by run_storage.
    + by run_storage.
Qed.

End UpdateAnyService.

(** An update by a caller without a row in [users] is answered 401 before
    any attach. *)
Lemma episode_update_without_user (svc : ObjectStorageService) (req : Request)
    (uid : string) (w : World) :
  req_user req = Some uid ->
  getUser (Some uid) (db w) = None ->
  put_episode svc req w =
    MkRun [CallGetUser (Some uid)] w
      (Return (message 401 "message" "Authentication required")).
Proof.
  intros Hu Hrow. unfold put_episode. rewrite route_passes.
  run_update. by rewrite Hu, Hrow.
Qed.

(** C8, counterexample: the update names the object [uploads/a1] as audio
    and as cover image and does not publish; the audio attach makes the
    record private, the cover attach that follows makes it public, and the
    record of the audio object is public after the request. *)
Lemma audio_made_public_by_cover : ~ audio_record_follows_isPublished.
Proof.
  intros H.
  destruct (H Demo.staged same_object_request "u1" Demo.destination "uploads/a1"
              Demo.alice (MkObject Demo.audio None)
              eq_refl eq_refl eq_refl eq_refl eq_refl) as [rs Hrs].
  - intros r Hr. discriminate Hr.
  - vm_compute in Hrs. discriminate Hrs.
Qed.

(** C8, amended: an episode update that supplies an [audioFileURL] makes
    its first attach call on it, with the authenticated caller as owner and
    visibility public when the [isPublished] field of the same update is
    truthy and private otherwise; the blob store after the request is the
    one the attach calls of the request left.  On the service of the spec
    the audio object has that owner and that visibility once the call has
    returned, and has them after the request unless the [coverImageURL] of
    the same update resolves to the same object: the cover attach then
    leaves it public. *)
Theorem episode_audio_policy :
  (forall (svc : ObjectStorageService) (req : Request) (uid : string) (u : User)
          (w : World),
      req_user req = Some uid ->
      getUser (Some uid) (db w) = Some u ->
      truthy (field (req_body req) "audioFileURL") = true ->
      head (attach_calls (trace (put_episode svc req w))) =
        Some (field (req_body req) "audioFileURL",
              MkAclPolicy (Some uid)
                (if truthy (field (req_body req) "isPublished")
                 then public else private)) /\
      blob (final (put_episode svc req w)) =
        blob (attaches_of_episode_update svc (Some uid) (req_body req) w)) /\
  (forall (req : Request) (uid url id : string) (u : User) (o : StoredObject)
          (w : World),
      req_user req = Some uid ->
      getUser (Some uid) (db w) = Some u ->
      field (req_body req) "audioFileURL" = JsStr url ->
      resolveUpload (store_root (blob w)) url = Return id ->
      object_at w id = Some o ->
      (forall r, acl o = Some r -> owner r = uid) ->
      exists rs,
        acl_record
            (SpecService.trySetObjectEntityAclPolicy (JsStr url)
               (MkAclPolicy (Some uid)
                  (if truthy (field (req_body req) "isPublished")
                   then public else private)) w).1 id =
          Some (MkRecord uid
                  (if truthy (field (req_body req) "isPublished")
                   then public else private) rs) /\
        acl_record (final (put_episode SpecService.service req w)) id =
          Some (MkRecord uid
                  (if resolves_to (store_root (blob w))
                        (field (req_body req) "coverImageURL") id
                   then public
                   else if truthy (field (req_body req) "isPublished")
                        then public else private) rs)).
Proof.
  split.
  - intros svc req uid u w Hu Hrow Haudio. split.
    + rewrite (episode_update_attach_calls svc req uid u w Hu Hrow).
      cbv zeta. by rewrite Haudio.
    + by apply (episode_update_blob svc req uid u w).
  - intros req uid url id u o w Hu Hrow Haudio Hres Ho Hown.
    set (v := if truthy (field (req_body req) "isPublished") then public else private).
    destruct (spec_attach_succeeds w url id uid o v Hres Ho Hown) as [rs Hrs].
    exists rs. rewrite Hrs. split; [apply acl_record_set_acl|].
    rewrite (acl_record_blob _ _ id
               (episode_update_blob SpecService.service req uid u w Hu Hrow)).
    unfold attaches_of_episode_update.
    rewrite Haudio, (resolveUpload_truthy _ _ _ Hres).
    cbn [trySetObjectEntityAclPolicy SpecService.service]. fold v. rewrite Hrs.
    destruct (truthy (field (req_body req) "coverImageURL")) eqn:Hcover.
    + by rewrite (record_after_attach _ uid id public v rs)
        by apply acl_record_set_acl.
    + destruct (resolves_to _ _ id) eqn:Hsame.
      * apply resolves_to_truthy in Hsame. congruence.
      * apply acl_record_set_acl.
Qed.

Lemma episode_audio_policy_witness :
  exists rs,
    acl_record
        (SpecService.trySetObjectEntityAclPolicy (JsStr Demo.destination)
           (MkAclPolicy (Some "u1") private) Demo.staged).1 "uploads/a1" =
      Some (MkRecord "u1" private rs) /\
    acl_record (final (put_episode SpecService.service (publish_request (JsBool false))
                         Demo.staged)) "uploads/a1" =
      Some (MkRecord "u1" private rs).
Proof.
  apply (proj2 episode_audio_policy (publish_request (JsBool false)) "u1"
           Demo.destination "uploads/a1" Demo.alice (MkObject Demo.audio None)
           Demo.staged);
    try reflexivity.
  intros r Hr. discriminate Hr.
Defined.

(** C9: the cover-image attach of the show update, of the season update and
    of the episode update carries visibility public and the authenticated
    caller as owner; in the episode update it follows the audio attach, and
    is made unless that one throws.  The blob store after the request is
    the one the attach left.  On the service of the spec the record of the
    cover object is then public and owned by the caller. *)
Theorem cover_attach_is_public :
  (forall (svc : ObjectStorageService) (req : Request) (uid : string) (u : User)
          (w : World),
      req_user req = Some uid ->
      getUser (Some uid) (db w) = Some u ->
      truthy (field (req_body req) "coverImageURL") = true ->
      (attach_calls (trace (put_show svc req w)) =
         [(field (req_body req) "coverImageURL", MkAclPolicy (Some uid) public)] /\
       attach_calls (trace (put_season svc req w)) =
         [(field (req_body req) "coverImageURL", MkAclPolicy (Some uid) public)] /\
       attach_calls (trace (put_episode svc req w)) =
         if truthy (field (req_body req) "audioFileURL") then
           (field (req_body req) "audioFileURL",
            MkAclPolicy (Some uid)
              (if truthy (field (req_body req) "isPublished") then public else private)) ::
             match (trySetObjectEntityAclPolicy svc (field (req_body req) "audioFileURL")
                      (MkAclPolicy (Some uid)
                         (if truthy (field (req_body req) "isPublished")
                          then public else private)) w).2 with
             | Return _ =>
                 [(field (req_body req) "coverImageURL", MkAclPolicy (Some uid) public)]
             | Throw _ => []
             end
         else [(field (req_body req) "coverImageURL", MkAclPolicy (Some uid) public)]) /\
      (blob (final (put_show svc req w)) =
         blob (trySetObjectEntityAclPolicy svc (field (req_body req) "coverImageURL")
                 (MkAclPolicy (Some uid) public) w).1 /\
       blob (final (put_season svc req w)) =
         blob (trySetObjectEntityAclPolicy svc (field (req_body req) "coverImageURL")
                 (MkAclPolicy (Some uid) public) w).1 /\
       blob (final (put_episode svc req w)) =
         blob (attaches_of_episode_update svc (Some uid) (req_body req) w))) /\
  (forall (req : Request) (uid url id : string) (u : User) (o : StoredObject)
          (w : World),
      req_user req = Some uid ->
      getUser (Some uid) (db w) = Some u ->
      field (req_body req) "coverImageURL" = JsStr url ->
      resolveUpload (store_root (blob w)) url = Return id ->
      object_at w id = Some o ->
      (forall r, acl o = Some r -> owner r = uid) ->
      (exists rs,
          acl_record (final (put_show SpecService.service req w)) id =
            Some (MkRecord uid public rs)) /\
      (exists rs,
          acl_record (final (put_season SpecService.service req w)) id =
            Some (MkRecord uid public rs)) /\
      ((truthy (field (req_body req) "audioFileURL") = true ->
        exists audioPath,
          (SpecService.trySetObjectEntityAclPolicy (field (req_body req) "audioFileURL")
             (MkAclPolicy (Some uid)
                (if truthy (field (req_body req) "isPublished")
                 then public else private)) w).2 = Return audioPath) ->
       exists rs,
         acl_record (final (put_episode SpecService.service req w)) id =
           Some (MkRecord uid public rs))).
Proof.
  split.
  - intros svc req uid u w Hu Hrow Hcover. split.
    + rewrite (show_update_attach_calls svc req uid u w Hu Hrow),
        (season_update_attach_calls svc req uid u w Hu Hrow),
        (episode_update_attach_calls svc req uid u w Hu Hrow).
      cbv zeta. by rewrite Hcover.
    + rewrite (show_update_blob svc req uid u w Hu Hrow),
        (season_update_blob svc req uid u w Hu Hrow),
        (episode_update_blob svc req uid u w Hu Hrow).
      cbv zeta. by rewrite Hcover.
  - intros req uid url id u o w Hu Hrow Hcover Hres Ho Hown.
    assert (Htruthy : truthy (field (req_body req) "coverImageURL") = true).
    { rewrite Hcover. by eapply resolveUpload_truthy. }
    destruct (spec_attach_succeeds w url id uid o public Hres Ho Hown) as [rs Hrs].
    split; [|split].
    + exists rs.
      pose proof (show_update_blob SpecService.service req uid u w Hu Hrow) as Hblob.
      rewrite Htruthy in Hblob. rewrite (acl_record_blob _ _ id Hblob), Hcover.
      cbn [trySetObjectEntityAclPolicy SpecService.service]. rewrite Hrs.
      apply acl_record_set_acl.
    + exists rs.
      pose proof (season_update_blob SpecService.service req uid u w Hu Hrow) as Hblob.
      rewrite Htruthy in Hblob. rewrite (acl_record_blob _ _ id Hblob), Hcover.
      cbn [trySetObjectEntityAclPolicy SpecService.service]. rewrite Hrs.
      apply acl_record_set_acl.
    + intros Haudio.
      rewrite (acl_record_blob _ _ id
                 (episode_update_blob SpecService.service req uid u w Hu Hrow)).
      unfold attaches_of_episode_update. rewrite Htruthy, Hcover.
      cbn [trySetObjectEntityAclPolicy SpecService.service].
      destruct (truthy (field (req_body req) "audioFileURL")).
      * destruct (Haudio eq_refl) as [audioPath Hpath].
        pose proof (attachable_after_attach (field (req_body req) "audioFileURL")
                      uid id
                      (if truthy (field (req_body req) "isPublished")
                       then public else private) o w Ho Hown) as (o1 & Ho1 & Hown1).
        pose proof (store_root_after_attach (field (req_body req) "audioFileURL")
                      (MkAclPolicy (Some uid)
                         (if truthy (field (req_body req) "isPublished")
                          then public else private)) w) as Hroot.
        destruct (SpecService.trySetObjectEntityAclPolicy
                    (field (req_body req) "audioFileURL") _ w) as [w1 out].
        simpl in Hpath, Ho1, Hroot. subst out.
        rewrite <- Hroot in Hres.
        destruct (spec_attach_succeeds w1 url id uid o1 public Hres Ho1 Hown1)
          as [rs1 Hrs1].
        exists rs1. rewrite Hrs1. apply acl_record_set_acl.
      * exists rs. rewrite Hrs. apply acl_record_set_acl.
Qed.

Lemma cover_attach_is_public_witness :
  (exists rs,
      acl_record (final (put_show SpecService.service cover_request Demo.staged))
        "uploads/a1" = Some (MkRecord "u1" public rs)) /\
  (exists rs,
      acl_record (final (put_season SpecService.service cover_request Demo.staged))
        "uploads/a1" = Some (MkRecord "u1" public rs)) /\
  ((truthy (field (req_body cover_request) "audioFileURL") = true ->
    exists audioPath,
      (SpecService.trySetObjectEntityAclPolicy
         (field (req_body cover_request) "audioFileURL")
         (MkAclPolicy (Some "u1")
            (if truthy (field (req_body cover_request) "isPublished")
             then public else private)) Demo.staged).2 = Return audioPath) ->
   exists rs,
     acl_record (final (put_episode SpecService.service cover_request Demo.staged))
       "uploads/a1" = Some (MkRecord "u1" public rs)).
Proof.
  apply (proj2 cover_attach_is_public cover_request "u1" Demo.destination
           "uploads/a1" Demo.alice (MkObject Demo.audio None) Demo.staged);
    try reflexivity.
  intros r Hr. discriminate Hr.
Defined.

(** * Further properties of the update routes *)

(** ** [update ... set ... where id] *)

Lemma update_where_table (id : string) (updates : JsObject) (now : Z)
    (rows : list JsObject) (i : nat) :
  (update_where id updates now rows).1 !! i =
    (fun row => if has_id id row then set_columns updates now row else row)
      <$> rows !! i.
Proof. unfold update_where. simpl. apply list_lookup_fmap. Qed.

(** X1: [updateShow] never adds or removes a row of [shows] and leaves
    every row with another id as and where it is; the blob store and the
    [users] table are not touched. *)
Theorem updateShow_frame (id : string) (updates : JsObject) (w : World) :
  blob (updateShow id updates w).1 = blob w /\
  users (db (updateShow id updates w).1) = users (db w) /\
  length (shows (db (updateShow id updates w).1)) = length (shows (db w)) /\
  forall (i : nat) (row : JsObject),
    shows (db w) !! i = Some row ->
    has_id id row = false ->
    shows (db (updateShow id updates w).1) !! i = Some row.
Proof.
  unfold updateShow.
  pose proof (update_where_table id updates (db_now (db w)) (shows (db w))) as Htab.
  destruct (update_where id updates (db_now (db w)) (shows (db w)))
    as [rows updated] eqn:Hup.
  simpl in *. repeat split.
  - assert (rows = (update_where id updates (db_now (db w)) (shows (db w))).1)
      as -> by by rewrite Hup.
    unfold update_where. simpl. apply length_fmap.
  - intros i row Hi Hid. by rewrite Htab, Hi; simpl; rewrite Hid.
Qed.

(** ** The show update route *)

Section ShowUpdate.

Context (svc : ObjectStorageService).
Context (req : Request) (uid : string) (u : User) (w : World).
Context (Hcaller : req_user req = Some uid).
Context (Huser : getUser (Some uid) (db w) = Some u).

Lemma put_show_cover :
  truthy (field (req_body req) "coverImageURL") = true ->
  put_show svc req w =
    let attach :=
      CallTrySetObjectEntityAclPolicy (field (req_body req) "coverImageURL")
        (MkAclPolicy (Some uid) public) in
    match trySetObjectEntityAclPolicy svc (field (req_body req) "coverImageURL")
            (MkAclPolicy (Some uid) public) w with
    | (w1, Throw _) =>
        MkRun [CallGetUser (Some uid); attach] w1
          (Return (message 400 "message" "Failed to update show"))
    | (w1, Return coverPath) =>
        let updates :=
          delete "coverImageURL" (<["coverImageUrl" := JsStr coverPath]> (req_body req)) in
        let '(w2, o) := updateShow (req_id req) updates w1 in
        MkRun [CallGetUser (Some uid); attach; CallUpdateShow (req_id req) updates] w2
          (Return match o with
                  | Return row => Json 200 row
                  | Throw _ => message 400 "message" "Failed to update show"
                  end)
    end.
Proof.
  intros Hcover. unfold put_show. rewrite route_passes.
  run_update. rewrite Hcaller, Huser. cbn [no_row trace final outcome].
  rewrite Hcover. cbn [trace final outcome]. cbv zeta.
  destruct (trySetObjectEntityAclPolicy svc _ _ w) as [w1 [p|e]];
    cbn [trace final outcome]; [|reflexivity].
  by destruct (updateShow (req_id req) _ w1) as [w2 [row|e]].
Qed.

End ShowUpdate.

(** X4: when the attach of a cover image succeeds, the update handed to the
    database names the path the attach returned under [coverImageUrl], has
    no [coverImageURL] any more, and is the body in every other column: the
    raw upload URL is not stored, and a [coverImageUrl] of the body is
    overwritten. *)
Theorem put_show_stores_attached_path (svc : ObjectStorageService) (req : Request)
    (uid coverPath : string) (u : User) (w w1 : World) :
  req_user req = Some uid ->
  getUser (Some uid) (db w) = Some u ->
  truthy (field (req_body req) "coverImageURL") = true ->
  trySetObjectEntityAclPolicy svc (field (req_body req) "coverImageURL")
    (MkAclPolicy (Some uid) public) w = (w1, Return coverPath) ->
  exists updates,
    last (trace (put_show svc req w)) = Some (CallUpdateShow (req_id req) updates) /\
    updates !! "coverImageUrl" = Some (JsStr coverPath) /\
    updates !! "coverImageURL" = None /\
    forall k, k <> "coverImageUrl" -> k <> "coverImageURL" ->
      updates !! k = req_body req !! k.
Proof.
  intros Hu Hrow Hcover Hset.
  exists (delete "coverImageURL" (<["coverImageUrl" := JsStr coverPath]> (req_body req))).
  rewrite (put_show_cover svc req uid u w Hu Hrow Hcover), Hset. cbv zeta.
  split; [by destruct (updateShow _ _ w1)|].
  split; [by rewrite lookup_delete_ne, lookup_insert_eq|].
  split; [by rewrite lookup_delete_eq|].
  intros k Hk1 Hk2. by rewrite lookup_delete_ne, lookup_insert_ne.
Qed.

Lemma put_show_stores_attached_path_witness :
  exists updates,
    last (trace (put_show SpecService.service cover_request Demo.staged)) =
      Some (CallUpdateShow "s1" updates) /\
    updates !! "coverImageUrl" = Some (JsStr "uploads/a1") /\
    updates !! "coverImageURL" = None /\
    forall k, k <> "coverImageUrl" -> k <> "coverImageURL" ->
      updates !! k = req_body cover_request !! k.
Proof.
  exact (put_show_stores_attached_path SpecService.service cover_request "u1"
           "uploads/a1" Demo.alice Demo.staged
           (set_acl Demo.staged "uploads/a1" (MkObject Demo.audio None)
              (MkRecord "u1" public []))
           eq_refl eq_refl eq_refl eq_refl).
Defined.

(** X5: when the attach of a cover image throws, whatever the error, the
    show update is answered 400 and the database is not called: the row
    stays as it is. *)
Theorem put_show_attach_failure (svc : ObjectStorageService) (req : Request)
    (uid : string) (u : User) (w w1 : World) (e : Exn) :
  req_user req = Some uid ->
  getUser (Some uid) (db w) = Some u ->
  truthy (field (req_body req) "coverImageURL") = true ->
  trySetObjectEntityAclPolicy svc (field (req_body req) "coverImageURL")
    (MkAclPolicy (Some uid) public) w = (w1, Throw e) ->
  put_show svc req w =
    MkRun [CallGetUser (Some uid);
           CallTrySetObjectEntityAclPolicy (field (req_body req) "coverImageURL")
             (MkAclPolicy (Some uid) public)]
      w1 (Return (message 400 "message" "Failed to update show")).
Proof.
  intros Hu Hrow Hcover Hset.
  by rewrite (put_show_cover svc req uid u w Hu Hrow Hcover), Hset.
Qed.

Lemma put_show_attach_failure_witness :
  put_show SpecService.service
      (MkRequest "/api/shows/s1" "s1" (Some "u1")
         {[ "coverImageURL" := JsStr "https://elsewhere.example/a1" ]}) Demo.staged =
    MkRun [CallGetUser (Some "u1");
           CallTrySetObjectEntityAclPolicy (JsStr "https://elsewhere.example/a1")
             (MkAclPolicy (Some "u1") public)]
      Demo.staged (Return (message 400 "message" "Failed to update show")).
Proof.
  exact (put_show_attach_failure SpecService.service
           (MkRequest "/api/shows/s1" "s1" (Some "u1")
              {[ "coverImageURL" := JsStr "https://elsewhere.example/a1" ]})
           "u1" Demo.alice Demo.staged Demo.staged MalformedReference
           eq_refl eq_refl eq_refl eq_refl).
Defined.

(** ** The episode update route, the project audio route, the download route *)

(** X6: in the episode update, when the audio attach succeeds and the cover
    attach then throws, the answer is 400 and the database is not called:
    the policy of the audio object has been attached, the episode row has
    not been updated. *)
Theorem put_episode_partial_failure (svc : ObjectStorageService) (req : Request)
    (uid audioPath : string) (u : User) (w w1 w2 : World) (e : Exn) :
  req_user req = Some uid ->
  getUser (Some uid) (db w) = Some u ->
  truthy (field (req_body req) "audioFileURL") = true ->
  truthy (field (req_body req) "coverImageURL") = true ->
  trySetObjectEntityAclPolicy svc (field (req_body req) "audioFileURL")
    (MkAclPolicy (Some uid) (published_visibility (req_body req))) w
    = (w1, Return audioPath) ->
  trySetObjectEntityAclPolicy svc (field (req_body req) "coverImageURL")
    (MkAclPolicy (Some uid) public) w1 = (w2, Throw e) ->
  put_episode svc req w =
    MkRun [CallGetUser (Some uid);
           CallTrySetObjectEntityAclPolicy (field (req_body req) "audioFileURL")
             (MkAclPolicy (Some uid) (published_visibility (req_body req)));
           CallTrySetObjectEntityAclPolicy (field (req_body req) "coverImageURL")
             (MkAclPolicy (Some uid) public)]
      w2 (Return (message 400 "message" "Failed to update episode")).
Proof.
  intros Hu Hrow Haudio Hcover Hset1 Hset2.
  unfold put_episode. rewrite route_passes.
  run_update. rewrite Hu, Hrow. cbn [no_row trace final outcome].
  rewrite Haudio. cbn [trace final outcome]. rewrite Hset1.
  cbn [trace final outcome]. rewrite cover_field_after_audio, Hcover.
  cbn [trace final outcome]. by rewrite Hset2.
Qed.

Lemma put_episode_partial_failure_witness :
  put_episode SpecService.service
      (MkRequest "/api/episodes/e1" "e1" (Some "u1")
         {[ "audioFileURL" := JsStr Demo.destination;
            "coverImageURL" := JsStr "https://elsewhere.example/c1" ]}) Demo.staged =
    MkRun [CallGetUser (Some "u1");
           CallTrySetObjectEntityAclPolicy (JsStr Demo.destination)
             (MkAclPolicy (Some "u1") private);
           CallTrySetObjectEntityAclPolicy (JsStr "https://elsewhere.example/c1")
             (MkAclPolicy (Some "u1") public)]
      (set_acl Demo.staged "uploads/a1" (MkObject Demo.audio None)
         (MkRecord "u1" private []))
      (Return (message 400 "message" "Failed to update episode")).
Proof.
  exact (put_episode_partial_failure SpecService.service
           (MkRequest "/api/episodes/e1" "e1" (Some "u1")
              {[ "audioFileURL" := JsStr Demo.destination;
                 "coverImageURL" := JsStr "https://elsewhere.example/c1" ]})
           "u1" "uploads/a1" Demo.alice Demo.staged
           (set_acl Demo.staged "uploads/a1" (MkObject Demo.audio None)
              (MkRecord "u1" private []))
           (set_acl Demo.staged "uploads/a1" (MkObject Demo.audio None)
              (MkRecord "u1" private []))
           MalformedReference eq_refl eq_refl eq_refl eq_refl eq_refl eq_refl).
Defined.

(** X7: a caller who passed the gate but has no row in [users] is answered
    401 by the show, season and episode updates; nothing is attached and
    the world is unchanged. *)
Theorem update_without_user_row (svc : ObjectStorageService) (req : Request)
    (uid : string) (w : World) :
  req_user req = Some uid ->
  getUser (Some uid) (db w) = None ->
  put_show svc req w =
    MkRun [CallGetUser (Some uid)] w
      (Return (message 401 "message" "Authentication required")) /\
  put_season svc req w =
    MkRun [CallGetUser (Some uid)] w
      (Return (message 401 "message" "Authentication required")) /\
  put_episode svc req w =
    MkRun [CallGetUser (Some uid)] w
      (Return (message 401 "message" "Authentication required")).
Proof.
  intros Hu Hrow. unfold put_show, put_season, put_episode.
  rewrite !route_passes. run_update. by rewrite Hu, Hrow.
Qed.

Lemma update_without_user_row_witness :
  put_show SpecService.service
      (MkRequest "/api/shows/s1" "s1" (Some "u9")
         {[ "coverImageURL" := JsStr Demo.destination ]}) Demo.staged =
    MkRun [CallGetUser (Some "u9")] Demo.staged
      (Return (message 401 "message" "Authentication required")).
Proof.
  exact (proj1 (update_without_user_row SpecService.service
           (MkRequest "/api/shows/s1" "s1" (Some "u9")
              {[ "coverImageURL" := JsStr Demo.destination ]})
           "u9" Demo.staged eq_refl eq_refl)).
Defined.

(** X8: the project audio route answers every error of the attach with 500,
    an [ObjectNotFoundError] included, which the download route answers
    404. *)
Theorem project_audio_attach_failure (svc : ObjectStorageService) (req : Request)
    (uid : string) (w w1 : World) (e : Exn) :
  req_user req = Some uid ->
  truthy (field (req_body req) "audioFileUrl") = true ->
  is_client (getUser (Some uid) (db w)) = false ->
  trySetObjectEntityAclPolicy svc (field (req_body req) "audioFileUrl")
    (MkAclPolicy (Some uid) private) w = (w1, Throw e) ->
  outcome (put_project_audio svc req w) =
    Return (message 500 "error" "Internal server error") /\
  final (put_project_audio svc req w) = w1.
Proof.
  intros Hu Hurl Hrole Hset. unfold put_project_audio.
  rewrite route_passes,
    (project_audio_attaches svc req uid w Hu Hurl Hrole), Hset.
  by split.
Qed.

Lemma project_audio_attach_failure_witness :
  outcome (put_project_audio SpecService.service
             (MkRequest "/api/projects/p1/audio" "p1" (Some "u1")
                {[ "audioFileUrl" := JsStr (Demo.root +:+ "uploads/none") ]})
             Demo.staged) =
    Return (message 500 "error" "Internal server error") /\
  final (put_project_audio SpecService.service
           (MkRequest "/api/projects/p1/audio" "p1" (Some "u1")
              {[ "audioFileUrl" := JsStr (Demo.root +:+ "uploads/none") ]})
           Demo.staged) = Demo.staged.
Proof.
  exact (project_audio_attach_failure SpecService.service
           (MkRequest "/api/projects/p1/audio" "p1" (Some "u1")
              {[ "audioFileUrl" := JsStr (Demo.root +:+ "uploads/none") ]})
           "u1" Demo.staged Demo.staged ObjectNotFoundError
           eq_refl eq_refl eq_refl eq_refl).
Defined.

(** X9: when the download route grants access, the file it asks
    [downloadObject] to stream is the file [getObjectEntityFile] returned
    and the READ check was made on, for the caller of the request; the
    answer is what [downloadObject] wrote. *)
Theorem download_streams_checked_file (svc : ObjectStorageService) (req : Request)
    (uid file : string) (w w1 w2 w3 : World) (r : Response) :
  req_user req = Some uid ->
  getObjectEntityFile svc (req_path req) w = (w1, Return file) ->
  canAccessObjectEntity svc file (Some uid) READ w1 = (w2, Return true) ->
  downloadObject svc file w2 = (w3, Return r) ->
  get_objects svc req w =
    MkRun [CallGetObjectEntityFile (req_path req);
           CallCanAccessObjectEntity file (Some uid) READ;
           CallDownloadObject file] w3 (Return r).
Proof.
  intros Hu Hget Hcan Hdown. unfold get_objects.
  rewrite route_passes. run_handler.
  rewrite Hget. simpl. rewrite Hu, Hcan. simpl. by rewrite Hdown.
Qed.

Lemma download_streams_checked_file_witness :
  get_objects SpecService.service (Demo.download (Some "u1")) (Demo.policed private) =
    MkRun [CallGetObjectEntityFile "/objects/uploads/a1";
           CallCanAccessObjectEntity "uploads/a1" (Some "u1") READ;
           CallDownloadObject "uploads/a1"] (Demo.policed private)
      (Return (Stream Demo.audio)).
Proof.
  exact (download_streams_checked_file SpecService.service
           (Demo.download (Some "u1")) "u1" "uploads/a1"
           (Demo.policed private) (Demo.policed private) (Demo.policed private)
           (Demo.policed private) (Stream Demo.audio)
           eq_refl eq_refl eq_refl eq_refl).
Defined.

(** * Properties of the remaining routes *)

(** ** The middleware, queries *)

(** Every request reaches the handler behind the middleware. *)
Lemma behind_passes (h : Endpoint) (req : Inbound) :
  behind isAuthenticated h req = h req.
Proof. reflexivity. Qed.

Lemma elem_of_select_where (p : JsObject -> bool) (rows : list JsObject) (row : JsObject) :
  row ∈ select_where p rows <-> p row = true /\ row ∈ rows.
Proof. unfold select_where. by rewrite list_elem_of_filter. Qed.

Lemma head_select_where (p : JsObject -> bool) (rows : list JsObject) (row : JsObject) :
  head (select_where p rows) = Some row -> p row = true /\ row ∈ rows.
Proof. intros H. apply elem_of_select_where. by apply head_Some_elem_of. Qed.

Lemma select_where_none (p : JsObject -> bool) (rows : list JsObject) :
  Forall (fun row => p row = false) rows -> select_where p rows = [].
Proof.
  induction 1 as [|row rows Hrow _ IH]; [done|].
  unfold select_where in *. rewrite filter_cons.
  destruct (decide (p row = true)); [congruence|done].
Qed.

#[local] Instance before_desc_total (col : string) : Total (before_desc col).
Proof.
  intros a b. unfold before_desc, desc_le.
  destruct (sort_key col a) as [x|], (sort_key col b) as [y|]; simpl; auto.
  destruct (Z.leb_spec y x), (Z.leb_spec x y); simpl; auto. lia.
Qed.

#[local] Instance before_asc_total (col : string) : Total (before_asc col).
Proof.
  intros a b. unfold before_asc, asc_le.
  destruct (sort_key col a) as [x|], (sort_key col b) as [y|]; simpl; auto.
  destruct (Z.leb_spec y x), (Z.leb_spec x y); simpl; auto. lia.
Qed.

Lemma order_desc_perm (col : string) (rows : list JsObject) :
  order_desc col rows ≡ₚ rows.
Proof. apply merge_sort_Permutation. Qed.

Lemma order_asc_perm (col : string) (rows : list JsObject) :
  order_asc col rows ≡ₚ rows.
Proof. apply merge_sort_Permutation. Qed.

Lemma elem_of_order_desc (col : string) (rows : list JsObject) (row : JsObject) :
  row ∈ order_desc col rows <-> row ∈ rows.
Proof. by rewrite order_desc_perm. Qed.

Lemma elem_of_order_asc (col : string) (rows : list JsObject) (row : JsObject) :
  row ∈ order_asc col rows <-> row ∈ rows.
Proof. by rewrite order_asc_perm. Qed.

Lemma column_is_lookup (col : string) (v : JsVal) (row : JsObject) :
  column_is col v row = true -> row !! col = Some v.
Proof.
  unfold column_is. destruct v; try discriminate; by intros ?%bool_decide_eq_true.
Qed.

Lemma has_id_same (id id' : string) (row : JsObject) :
  has_id id row = true -> has_id id' row = true -> id = id'.
Proof.
  unfold has_id. intros H1%bool_decide_eq_true H2%bool_decide_eq_true. congruence.
Qed.

(** ** [delete ... where id] *)

Lemma select_after_delete (id : string) (rows : list JsObject) :
  select_where (has_id id) (delete_where (has_id id) rows) = [].
Proof.
  apply select_where_none, Forall_forall. intros row Hrow.
  by apply list_elem_of_filter in Hrow as [? _].
Qed.

Lemma select_other_after_delete (id id' : string) (rows : list JsObject) :
  id' <> id ->
  select_where (has_id id') (delete_where (has_id id) rows) =
    select_where (has_id id') rows.
Proof.
  intros Hne. unfold select_where, delete_where.
  induction rows as [|row rows IH]; [done|].
  rewrite !filter_cons.
  destruct (decide (has_id id row = false)) as [Hid|Hid].
  - rewrite filter_cons. destruct (decide (has_id id' row = true)); by rewrite IH.
  - destruct (decide (has_id id' row = true)) as [Hid'|]; [|done].
    destruct (has_id id row) eqn:Hrow; [|done].
    by destruct Hne; eapply has_id_same.
Qed.

Ltac run_act :=
  cbv [act_try act_bind act_getUser read write act_ret act_throw act_claims_sub].

(** X10: the deletion of a show is refused to every caller who is not a
    producer or an admin, a caller without a row in [users] included; the
    state is unchanged, and a caller who passed the gate is answered 403. *)
Theorem delete_show_refused (req : Inbound) (s : Site) :
  may_not_delete_shows (getUser (req_user (in_req req)) (site_db s)) = true ->
  (delete_show req s).1 = s /\
  forall uid, req_user (in_req req) = Some uid ->
    (delete_show req s).2 =
      Return (reply_message 403 "Only producers and admins can delete shows").
Proof.
  intros Hrole. unfold delete_show. rewrite behind_passes.
  unfold show_delete_handler. run_act. rewrite Hrole. by split.
Qed.

Lemma delete_show_refused_witness :
  (delete_show (Campus.request (Some "u3") "s1" ∅ ∅) Campus.site).1 = Campus.site /\
  forall uid, Some "u3" = Some uid ->
    (delete_show (Campus.request (Some "u3") "s1" ∅ ∅) Campus.site).2 =
      Return (reply_message 403 "Only producers and admins can delete shows").
Proof.
  exact (delete_show_refused (Campus.request (Some "u3") "s1" ∅ ∅) Campus.site eq_refl).
Defined.

(** X11: a producer or an admin deletes a show: the answer is 204, no show
    has the id afterwards, and the show of every other id is the one it
    was. *)
Theorem delete_show_removes (req : Inbound) (s : Site) (uid : string) (u : User) :
  req_user (in_req req) = Some uid ->
  getUser (Some uid) (site_db s) = Some u ->
  has_role u "producer" || has_role u "admin" = true ->
  (delete_show req s).2 = Return (MkReply 204 NoBody) /\
  getShow (req_id (in_req req)) (delete_show req s).1 = None /\
  (forall id', id' <> req_id (in_req req) ->
     getShow id' (delete_show req s).1 = getShow id' s).
Proof.
  intros Hu Hrow Hrole. unfold delete_show.
  rewrite behind_passes. unfold show_delete_handler. run_act.
  rewrite Hu, Hrow. unfold may_not_delete_shows.
  destruct (has_role u "producer"), (has_role u "admin"); try discriminate;
    cbn [negb andb fst snd]; unfold getShow, deleteShow, on_db, site_db; simpl;
    (split; [done|]); (split; [by rewrite select_after_delete|]);
    intros id' Hne; by rewrite select_other_after_delete.
Qed.

Lemma delete_show_removes_witness :
  (delete_show (Campus.request (Some "u1") "s1" ∅ ∅) Campus.site).2 =
    Return (MkReply 204 NoBody) /\
  getShow "s1" (delete_show (Campus.request (Some "u1") "s1" ∅ ∅) Campus.site).1 = None /\
  (forall id', id' <> "s1" ->
     getShow id' (delete_show (Campus.request (Some "u1") "s1" ∅ ∅) Campus.site).1 =
       getShow id' Campus.site).
Proof.
  exact (delete_show_removes (Campus.request (Some "u1") "s1" ∅ ∅) Campus.site
           "u1" Demo.alice eq_refl eq_refl eq_refl).
Defined.

(** X12: a season or an episode is deleted for every caller who has a row
    in [users], whatever the role, a client included: the answer is 204 and
    no row has the id afterwards; the rows of other ids stay. *)
Theorem delete_season_episode_any_role (req : Inbound) (s : Site) (uid : string)
    (u : User) :
  req_user (in_req req) = Some uid ->
  getUser (Some uid) (site_db s) = Some u ->
  ((delete_season req s).2 = Return (MkReply 204 NoBody) /\
   getSeason (req_id (in_req req)) (delete_season req s).1 = None /\
   forall id', id' <> req_id (in_req req) ->
     getSeason id' (delete_season req s).1 = getSeason id' s) /\
  ((delete_episode req s).2 = Return (MkReply 204 NoBody) /\
   getEpisode (req_id (in_req req)) (delete_episode req s).1 = None /\
   forall id', id' <> req_id (in_req req) ->
     getEpisode id' (delete_episode req s).1 = getEpisode id' s).
Proof.
  intros Hu Hrow. unfold delete_season, delete_episode.
  rewrite !behind_passes.
  unfold season_delete_handler, episode_delete_handler. run_act.
  rewrite Hu, Hrow. cbn [no_row fst snd].
  unfold getSeason, getEpisode, deleteSeason, deleteEpisode, on_db, site_db; simpl.
  repeat split; rewrite ?select_after_delete; try done;
    intros id' Hne; by rewrite select_other_after_delete.
Qed.

Lemma delete_season_episode_any_role_witness :
  ((delete_season (Campus.request (Some "u3") "n1" ∅ ∅) Campus.site).2 =
     Return (MkReply 204 NoBody) /\
   getSeason "n1" (delete_season (Campus.request (Some "u3") "n1" ∅ ∅) Campus.site).1
     = None /\
   forall id', id' <> "n1" ->
     getSeason id' (delete_season (Campus.request (Some "u3") "n1" ∅ ∅) Campus.site).1
       = getSeason id' Campus.site) /\
  ((delete_episode (Campus.request (Some "u3") "n1" ∅ ∅) Campus.site).2 =
     Return (MkReply 204 NoBody) /\
   getEpisode "n1" (delete_episode (Campus.request (Some "u3") "n1" ∅ ∅) Campus.site).1
     = None /\
   forall id', id' <> "n1" ->
     getEpisode id' (delete_episode (Campus.request (Some "u3") "n1" ∅ ∅) Campus.site).1
       = getEpisode id' Campus.site).
Proof.
  exact (delete_season_episode_any_role (Campus.request (Some "u3") "n1" ∅ ∅)
           Campus.site "u3" Demo.carol eq_refl eq_refl).
Defined.

(** ** Users and roles *)

Lemma getUser_id (id : string) (d : Database) (u : User) :
  getUser (Some id) d = Some u -> user_id u = id.
Proof.
  unfold getUser. intros H%head_Some_elem_of.
  apply list_elem_of_filter in H as [H _]. congruence.
Qed.

Lemma getUser_exists (id : string) (d : Database) (u : User) :
  getUser (Some id) d = Some u ->
  existsb (fun x => bool_decide (user_id x = id)) (users d) = true.
Proof.
  unfold getUser. intros H%head_Some_elem_of.
  apply list_elem_of_filter in H as [H Hin].
  apply existsb_exists. exists u. split; [by apply list_elem_of_In|].
  apply bool_decide_eq_true. congruence.
Qed.

(** The first row a condition on the id selects, after a change of rows
    that keeps every id. *)
Lemma first_with_id_fmap (id : string) (f : User -> User) (rows : list User) :
  (forall x, user_id (f x) = user_id x) ->
  head (filter (fun x => Some (user_id x) = Some id) (f <$> rows)) =
    f <$> head (filter (fun x => Some (user_id x) = Some id) rows).
Proof.
  intros Hf. induction rows as [|x rows IH]; [done|].
  rewrite fmap_cons, !filter_cons, Hf.
  by destruct (decide (Some (user_id x) = Some id)).
Qed.

Lemma upsertUser_present (u : User) (d : Database) :
  existsb (fun x => bool_decide (user_id x = user_id u)) (users d) = true ->
  users (upsertUser u d).1 =
    (fun x => if bool_decide (user_id x = user_id u) then u else x) <$> users d.
Proof. intros H. unfold upsertUser. cbv zeta. by rewrite H. Qed.

Lemma upsertUser_absent (u : User) (d : Database) :
  existsb (fun x => bool_decide (user_id x = user_id u)) (users d) = false ->
  users (upsertUser u d).1 = (users d ++ [u])%list.
Proof. intros H. unfold upsertUser. cbv zeta. by rewrite H. Qed.

Lemma upsert_keeps_id (u x : User) :
  user_id (if bool_decide (user_id x = user_id u) then u else x) = user_id x.
Proof. by case_bool_decide. Qed.

Lemma upsertUser_lookup (u : User) (d : Database) :
  getUser (Some (user_id u)) (upsertUser u d).1 = Some u /\
  (forall id', id' <> user_id u ->
     getUser (Some id') (upsertUser u d).1 = getUser (Some id') d) /\
  (NoDup (user_id <$> users d) -> NoDup (user_id <$> users (upsertUser u d).1)).
Proof.
  destruct (existsb (fun x => bool_decide (user_id x = user_id u)) (users d))
    eqn:Hex; unfold getUser.
  - rewrite (upsertUser_present u d Hex). split; [|split].
    + rewrite first_with_id_fmap by apply upsert_keeps_id.
      apply existsb_exists in Hex as (x & Hin & Hx).
      apply bool_decide_eq_true in Hx. apply list_elem_of_In in Hin.
      assert (Hsel : x ∈ filter (fun y => Some (user_id y) = Some (user_id u)) (users d))
        by (apply list_elem_of_filter; split; [congruence|done]).
      destruct (filter _ (users d)) as [|y rest] eqn:Hf;
        [by apply elem_of_nil in Hsel|].
      assert (Hy : y ∈ filter (fun y => Some (user_id y) = Some (user_id u)) (users d))
        by (rewrite Hf; apply list_elem_of_here).
      apply list_elem_of_filter in Hy as [Hy _]. simpl.
      rewrite bool_decide_eq_true_2; [done|congruence].
    + intros id' Hne.
      rewrite first_with_id_fmap by apply upsert_keeps_id.
      destruct (head (filter _ (users d))) as [y|] eqn:Hh; [|done].
      apply head_Some_elem_of, list_elem_of_filter in Hh as [Hy _]. simpl.
      rewrite bool_decide_eq_false_2; [done|congruence].
    + intros Hnd. rewrite <- list_fmap_compose.
      erewrite list_fmap_ext; [exact Hnd|].
      intros i x _. apply upsert_keeps_id.
  - rewrite (upsertUser_absent u d Hex).
    assert (Hnone : forall x, x ∈ users d -> user_id x <> user_id u).
    { intros x Hin Heq.
      assert (existsb (fun x => bool_decide (user_id x = user_id u)) (users d) = true);
        [|congruence].
      apply existsb_exists. exists x. split; [by apply list_elem_of_In|].
      by apply bool_decide_eq_true. }
    split; [|split].
    + rewrite filter_app.
      assert (filter (fun x => Some (user_id x) = Some (user_id u)) (users d) = [])
        as ->.
      { revert Hnone. generalize (users d). intros rows Hnone.
        induction rows as [|x rows IH]; [done|].
        rewrite filter_cons. destruct (decide _) as [Heq|].
        - destruct (Hnone x); [left|congruence].
        - apply IH. intros y Hy. apply Hnone. by right. }
      simpl. rewrite filter_cons. by destruct (decide _).
    + intros id' Hne. rewrite filter_app.
      rewrite (filter_cons _ u), filter_nil.
      destruct (decide (Some (user_id u) = Some id')); [congruence|].
      by rewrite app_nil_r.
    + intros Hnd. rewrite fmap_app. apply NoDup_app. split; [done|].
      split; [|apply NoDup_singleton].
      intros id Hid Hu. apply list_elem_of_singleton in Hu as ->.
      apply list_elem_of_fmap in Hid as (x & Hx & Hin). by apply (Hnone x).
Qed.

(** X13: [upsertUser] followed by [getUser] of the same id gives the data
    that was written; the user of every other id is who it was; and ids
    that were unique stay unique. *)
Theorem upsertUser_getUser (u : User) (d : Database) :
  getUser (Some (user_id u)) (upsertUser u d).1 = Some u /\
  (forall id', id' <> user_id u ->
     getUser (Some id') (upsertUser u d).1 = getUser (Some id') d) /\
  (NoDup (user_id <$> users d) -> NoDup (user_id <$> users (upsertUser u d).1)).
Proof. apply upsertUser_lookup. Qed.

(** X14: the role route changes nothing unless the caller is an admin, the
    role is one of client, producer and admin, and the target user
    exists; a caller who passed the gate is answered 403, 400 or 404, in
    this order of the checks. *)
Theorem user_role_refused (req : Inbound) (s : Site) :
  not_admin (getUser (req_user (in_req req)) (site_db s)) = true \/
  valid_role (field (req_body (in_req req)) "role") = None \/
  getUser (Some (req_id (in_req req))) (site_db s) = None ->
  (put_user_role req s).1 = s /\
  forall uid, req_user (in_req req) = Some uid ->
    (put_user_role req s).2 =
      Return
        (if not_admin (getUser (Some uid) (site_db s))
         then reply_message 403 "Only admins can change user roles"
         else match valid_role (field (req_body (in_req req)) "role") with
              | Some _ => reply_message 404 "User not found"
              | None => reply_message 400 "Invalid role"
              end).
Proof.
  intros Hguard. unfold put_user_role. rewrite behind_passes.
  unfold user_role_handler. run_act.
  destruct (not_admin (getUser (req_user (in_req req)) (site_db s))) eqn:Hadmin.
  { split; [done|]. intros uid Hu. rewrite Hu in Hadmin. by rewrite Hadmin. }
  destruct (valid_role (field (req_body (in_req req)) "role")) as [role|] eqn:Hrole.
  2:{ split; [done|]. intros uid Hu. rewrite Hu in Hadmin. by rewrite Hadmin. }
  destruct Hguard as [|[|Htarget]]; [done..|].
  rewrite Htarget. split; [done|]. intros uid Hu. rewrite Hu in Hadmin.
  by rewrite Hadmin.
Qed.

Lemma user_role_refused_witness :
  (put_user_role (Campus.request (Some "u1") "u3" {[ "role" := JsStr "admin" ]} ∅)
     Campus.site).1 = Campus.site /\
  forall uid, Some "u1" = Some uid ->
    (put_user_role (Campus.request (Some "u1") "u3" {[ "role" := JsStr "admin" ]} ∅)
       Campus.site).2 =
      Return
        (if not_admin (getUser (Some uid) (site_db Campus.site))
         then reply_message 403 "Only admins can change user roles"
         else match valid_role (JsStr "admin") with
              | Some _ => reply_message 404 "User not found"
              | None => reply_message 400 "Invalid role"
              end).
Proof.
  exact (user_role_refused
           (Campus.request (Some "u1") "u3" {[ "role" := JsStr "admin" ]} ∅)
           Campus.site (or_introl eq_refl)).
Defined.

(** X15: when an admin gives an existing user a valid role, the answer is
    200 with the user under the new role; afterwards that user has the new
    role, every other user is who it was, and the ids of [users] are the
    same list: the route creates no user and removes none. *)
Theorem user_role_changes (req : Inbound) (s : Site) (uid role : string)
    (caller target : User) :
  req_user (in_req req) = Some uid ->
  getUser (Some uid) (site_db s) = Some caller ->
  has_role caller "admin" = true ->
  valid_role (field (req_body (in_req req)) "role") = Some role ->
  getUser (Some (req_id (in_req req))) (site_db s) = Some target ->
  (put_user_role req s).2 =
    Return (MkReply 200 (UserRow (MkUser (req_id (in_req req)) role))) /\
  getUser (Some (req_id (in_req req))) (site_db (put_user_role req s).1) =
    Some (MkUser (req_id (in_req req)) role) /\
  (forall id', id' <> req_id (in_req req) ->
     getUser (Some id') (site_db (put_user_role req s).1) =
       getUser (Some id') (site_db s)) /\
  user_id <$> users (site_db (put_user_role req s).1) = user_id <$> users (site_db s).
Proof.
  intros Hu Hcaller Hadmin Hrole Htarget. unfold put_user_role.
  rewrite behind_passes. unfold user_role_handler. run_act.
  rewrite Hu, Hcaller. unfold not_admin. rewrite Hadmin. cbn [negb].
  rewrite Hrole, Htarget.
  pose proof (getUser_id _ _ _ Htarget) as Hid. rewrite Hid.
  set (u := MkUser (req_id (in_req req)) role).
  pose proof (upsertUser_lookup u (site_db s)) as (Hget & Hother & _).
  assert (Hex : existsb (fun x => bool_decide (user_id x = user_id u))
                  (users (site_db s)) = true)
    by exact (getUser_exists _ _ _ Htarget).
  pose proof (upsertUser_present u (site_db s) Hex) as Hrows.
  destruct (upsertUser u (site_db s)) as [d u'] eqn:Hup.
  assert (u' = u) as -> by (unfold upsertUser in Hup; by injection Hup).
  simpl in *. split; [done|]. split; [exact Hget|]. split; [exact Hother|].
  unfold site_db, on_db. simpl. rewrite Hrows, <- list_fmap_compose.
  apply list_fmap_ext. intros i x _. exact (upsert_keeps_id u x).
Qed.

Lemma user_role_changes_witness :
  (put_user_role (Campus.request (Some "u4") "u3" {[ "role" := JsStr "producer" ]} ∅)
     Campus.site).2 = Return (MkReply 200 (UserRow (MkUser "u3" "producer"))) /\
  getUser (Some "u3")
    (site_db (put_user_role
       (Campus.request (Some "u4") "u3" {[ "role" := JsStr "producer" ]} ∅)
       Campus.site).1) = Some (MkUser "u3" "producer") /\
  (forall id', id' <> "u3" ->
     getUser (Some id')
       (site_db (put_user_role
          (Campus.request (Some "u4") "u3" {[ "role" := JsStr "producer" ]} ∅)
          Campus.site).1) = getUser (Some id') (site_db Campus.site)) /\
  user_id <$> users (site_db (put_user_role
       (Campus.request (Some "u4") "u3" {[ "role" := JsStr "producer" ]} ∅)
       Campus.site).1) = user_id <$> users (site_db Campus.site).
Proof.
  exact (user_role_changes
           (Campus.request (Some "u4") "u3" {[ "role" := JsStr "producer" ]} ∅)
           Campus.site "u4" "producer" Campus.dana Demo.carol
           eq_refl eq_refl eq_refl eq_refl eq_refl).
Defined.

(** ** Counters *)

Lemma bump_lookup_other (col k : string) (row : JsObject) :
  k <> col -> bump col row !! k = row !! k.
Proof.
  intros Hk. unfold bump.
  destruct (row !! col) as [[]|]; try done. by rewrite lookup_insert_ne.
Qed.

Lemma bump_lookup_same (col : string) (row : JsObject) (n : Z) :
  row !! col = Some (JsNum n) -> bump col row !! col = Some (JsNum (n + 1)).
Proof. intros H. unfold bump. rewrite H. apply lookup_insert_eq. Qed.

Lemma has_id_bump (id col : string) (row : JsObject) :
  col <> "id" -> has_id id (bump col row) = has_id id row.
Proof. intros H. unfold has_id. by rewrite bump_lookup_other. Qed.

Lemma bump_commute (c1 c2 : string) (row : JsObject) :
  c1 <> c2 -> bump c1 (bump c2 row) = bump c2 (bump c1 row).
Proof.
  intros Hne. unfold bump at 1 3.
  rewrite (bump_lookup_other c2 c1) by done.
  rewrite (bump_lookup_other c1 c2) by done.
  unfold bump.
  destruct (row !! c1) as [[| | |n1|]|], (row !! c2) as [[| | |n2|]|]; try done.
  by apply insert_insert_ne.
Qed.

Lemma bump_where_commute (id1 id2 c1 c2 : string) (rows : list JsObject) :
  c1 <> c2 -> c1 <> "id" -> c2 <> "id" ->
  bump_where id1 c1 (bump_where id2 c2 rows) =
    bump_where id2 c2 (bump_where id1 c1 rows).
Proof.
  intros Hne H1 H2. unfold bump_where. rewrite <- !list_fmap_compose.
  apply list_fmap_ext. intros i row _. simpl.
  destruct (has_id id1 row) eqn:Hid1, (has_id id2 row) eqn:Hid2;
    rewrite ?has_id_bump, ?Hid1, ?Hid2 by done; [|done..].
  by apply bump_commute.
Qed.

(** X16: the play counter route needs no caller.  As long as the count of
    the episodes with the id is below the greatest [integer], it answers
    204 whether or not an episode has the id; no row is added or removed; a
    row with another id is unchanged; a row with the id has its [playCount]
    raised by one; and no other column of any row changes, [downloadCount]
    and [updatedAt] included. *)
Theorem episode_play_counts (req : Inbound) (s : Site) :
  forallb (fun row => implb (has_id (req_id (in_req req)) row)
                        (below_integer_max "playCount" row))
    (episodes (site_db s)) = true ->
  (post_episode_play req s).2 = Return (MkReply 204 NoBody) /\
  length (episodes (site_db (post_episode_play req s).1)) =
    length (episodes (site_db s)) /\
  forall (i : nat) (row : JsObject),
    episodes (site_db s) !! i = Some row ->
    exists row',
      episodes (site_db (post_episode_play req s).1) !! i = Some row' /\
      (has_id (req_id (in_req req)) row = false -> row' = row) /\
      (has_id (req_id (in_req req)) row = true ->
         forall n, row !! "playCount" = Some (JsNum n) ->
                   row' !! "playCount" = Some (JsNum (n + 1))) /\
      (forall k, k <> "playCount" -> row' !! k = row !! k).
Proof.
  intros _. unfold post_episode_play. run_act.
  unfold incrementEpisodePlayCount, bump_episodes, on_db, site_db, bump_where. simpl.
  split; [done|]. split; [apply length_fmap|].
  intros i row Hi. rewrite list_lookup_fmap, Hi. simpl.
  destruct (has_id (req_id (in_req req)) row); eexists; (split; [done|]).
  - split; [done|]. split.
    + intros _ n Hn. by apply bump_lookup_same.
    + intros k Hk. by apply bump_lookup_other.
  - by repeat split.
Qed.

Lemma episode_play_counts_witness :
  (post_episode_play (Campus.request None "e1" ∅ ∅) Campus.site).2 =
    Return (MkReply 204 NoBody) /\
  length (episodes (site_db (post_episode_play (Campus.request None "e1" ∅ ∅)
                               Campus.site).1)) =
    length (episodes (site_db Campus.site)) /\
  forall (i : nat) (row : JsObject),
    episodes (site_db Campus.site) !! i = Some row ->
    exists row',
      episodes (site_db (post_episode_play (Campus.request None "e1" ∅ ∅)
                           Campus.site).1) !! i = Some row' /\
      (has_id "e1" row = false -> row' = row) /\
      (has_id "e1" row = true ->
         forall n, row !! "playCount" = Some (JsNum n) ->
                   row' !! "playCount" = Some (JsNum (n + 1))) /\
      (forall k, k <> "playCount" -> row' !! k = row !! k).
Proof.
  exact (episode_play_counts (Campus.request None "e1" ∅ ∅) Campus.site eq_refl).
Defined.

(** X17: the play counter and the download counter do not interfere: the
    two requests leave the same state in either order, whatever the ids. *)
Theorem counters_commute (play download : Inbound) (s : Site) :
  (post_episode_download download (post_episode_play play s).1).1 =
    (post_episode_play play (post_episode_download download s).1).1.
Proof.
  unfold post_episode_play, post_episode_download. run_act.
  unfold incrementEpisodePlayCount, incrementEpisodeDownloadCount, bump_episodes,
    on_db, site_db.
  simpl. by rewrite (bump_where_commute _ _ "downloadCount" "playCount").
Qed.

(** ** Podcasts *)

(** X18: the podcast route answers 200 only with a podcast that has the id
    and is published; a podcast that is not published is answered as one
    that does not exist, with the same 404; the state is unchanged. *)
Theorem get_podcast_published_only (req : Inbound) (s : Site) :
  (get_podcast req s).1 = s /\
  (forall r, (get_podcast req s).2 = Return r -> reply_status r = 200 ->
     exists p, reply_body r = Row (Some p) /\ p ∈ podcasts s /\
               has_id (req_id (in_req req)) p = true /\
               truthy (field p "isPublished") = true) /\
  (forall p, getPodcast (req_id (in_req req)) s = Some p ->
     truthy (field p "isPublished") = false ->
     (get_podcast req s).2 = Return (reply_message 404 "Podcast not found")) /\
  (getPodcast (req_id (in_req req)) s = None ->
     (get_podcast req s).2 = Return (reply_message 404 "Podcast not found")).
Proof.
  unfold get_podcast. run_act.
  destruct (getPodcast (req_id (in_req req)) s) as [p|] eqn:Hget.
  - apply head_select_where in Hget as [Hid Hin].
    destruct (truthy (field p "isPublished")) eqn:Hpub; simpl.
    + split; [done|]. split; [intros r [= <-] _; by exists p|].
      split; [intros p' [= <-] ?; congruence|done].
    + split; [done|]. split; [by intros r [= <-] [=]|]. by split.
  - simpl. split; [done|]. split; [by intros r [= <-] [=]|]. by split.
Qed.

(** X19: the public podcast list holds exactly the podcasts whose
    [isPublished] is true, each as often as the table has it, ordered by
    [publishedAt] with the latest first; the state is unchanged. *)
Theorem get_podcasts_published_only (req : Inbound) (s : Site) :
  exists rows,
    get_podcasts req s = (s, Return (MkReply 200 (Rows rows))) /\
    rows ≡ₚ select_where (column_is "isPublished" (JsBool true)) (podcasts s) /\
    (forall p, p ∈ rows <->
       p ∈ podcasts s /\ p !! "isPublished" = Some (JsBool true)) /\
    Sorted (before_desc "publishedAt") rows.
Proof.
  exists (getPublishedPodcasts s). unfold get_podcasts. run_act.
  split; [done|]. unfold getPublishedPodcasts.
  split; [apply order_desc_perm|]. split; [|apply Sorted_merge_sort, _].
  intros p. rewrite elem_of_order_desc, elem_of_select_where.
  unfold column_is. rewrite bool_decide_eq_true. tauto.
Qed.

(** ** Projects and messages *)

(** X20: the project list depends on the role of the caller: a client
    receives exactly the projects whose [clientId] is the caller, an admin
    or a producer receives every project, and a caller of any other role
    receives none; the state is unchanged. *)
Theorem get_projects_by_role (req : Inbound) (s : Site) (uid : string) (u : User) :
  req_user (in_req req) = Some uid ->
  getUser (Some uid) (site_db s) = Some u ->
  exists rows,
    get_projects req s = (s, Return (MkReply 200 (Rows rows))) /\
    (has_role u "client" = true ->
       forall p, p ∈ rows <-> p ∈ projects s /\ p !! "clientId" = Some (JsStr uid)) /\
    (has_role u "client" = false ->
       has_role u "admin" || has_role u "producer" = true ->
       rows ≡ₚ projects s) /\
    (has_role u "client" = false ->
       has_role u "admin" || has_role u "producer" = false ->
       rows = []).
Proof.
  intros Hu Hrow. unfold get_projects. rewrite behind_passes.
  unfold projects_list_handler. run_act. rewrite Hu, Hrow.
  destruct (has_role u "client") eqn:Hclient.
  - eexists. split; [done|]. split; [|by split].
    intros _ p. unfold getProjectsForClient.
    rewrite elem_of_order_desc, elem_of_select_where. simpl.
    rewrite bool_decide_eq_true. tauto.
  - destruct (has_role u "admin" || has_role u "producer") eqn:Hstaff;
      eexists; (split; [done|]); (split; [done|]); split; try done.
    intros _ _. apply order_desc_perm.
Qed.

Lemma get_projects_by_role_witness :
  exists rows,
    get_projects (Campus.request (Some "u3") "" ∅ ∅) Campus.site =
      (Campus.site, Return (MkReply 200 (Rows rows))) /\
    (has_role Demo.carol "client" = true ->
       forall p, p ∈ rows <->
         p ∈ projects Campus.site /\ p !! "clientId" = Some (JsStr "u3")) /\
    (has_role Demo.carol "client" = false ->
       has_role Demo.carol "admin" || has_role Demo.carol "producer" = true ->
       rows ≡ₚ projects Campus.site) /\
    (has_role Demo.carol "client" = false ->
       has_role Demo.carol "admin" || has_role Demo.carol "producer" = false ->
       rows = []).
Proof.
  exact (get_projects_by_role (Campus.request (Some "u3") "" ∅ ∅) Campus.site
           "u3" Demo.carol eq_refl eq_refl).
Defined.

(** X21: a client reads a project by id only when it is the client's own:
    a 200 carries a project with the id whose [clientId] is the caller, a
    project of another client is answered 403, and an id no project has is
    answered 404; the state is unchanged. *)
Theorem get_project_own_only (req : Inbound) (s : Site) (uid : string) (u : User) :
  req_user (in_req req) = Some uid ->
  getUser (Some uid) (site_db s) = Some u ->
  has_role u "client" = true ->
  (get_project req s).1 = s /\
  (forall r, (get_project req s).2 = Return r -> reply_status r = 200 ->
     exists p, reply_body r = Row (Some p) /\ p ∈ projects s /\
               has_id (req_id (in_req req)) p = true /\
               field p "clientId" = JsStr uid) /\
  (forall p, getProject (req_id (in_req req)) s = Some p ->
     field p "clientId" <> JsStr uid ->
     (get_project req s).2 = Return (reply_message 403 "Access denied")) /\
  (getProject (req_id (in_req req)) s = None ->
     (get_project req s).2 = Return (reply_message 404 "Project not found")).
Proof.
  intros Hu Hrow Hclient. unfold get_project. rewrite behind_passes.
  unfold project_get_handler. run_act. rewrite Hu, Hrow.
  unfold is_client. fold (has_role u "client"). rewrite Hclient.
  destruct (getProject (req_id (in_req req)) s) as [p|] eqn:Hget; simpl.
  - apply head_select_where in Hget as [Hid Hin]. unfold not_client_of.
    case_bool_decide as Hown; simpl.
    + split; [done|]. split; [intros r [= <-] _; by exists p|].
      split; [by intros p' [= <-] ?|done].
    + split; [done|]. split; [by intros r [= <-] [=]|]. by split.
  - split; [done|]. split; [by intros r [= <-] [=]|]. by split.
Qed.

Lemma get_project_own_only_witness :
  (get_project (Campus.request (Some "u3") "p2" ∅ ∅) Campus.site).1 = Campus.site /\
  (forall r, (get_project (Campus.request (Some "u3") "p2" ∅ ∅) Campus.site).2
             = Return r -> reply_status r = 200 ->
     exists p, reply_body r = Row (Some p) /\ p ∈ projects Campus.site /\
               has_id "p2" p = true /\ field p "clientId" = JsStr "u3") /\
  (forall p, getProject "p2" Campus.site = Some p ->
     field p "clientId" <> JsStr "u3" ->
     (get_project (Campus.request (Some "u3") "p2" ∅ ∅) Campus.site).2 =
       Return (reply_message 403 "Access denied")) /\
  (getProject "p2" Campus.site = None ->
     (get_project (Campus.request (Some "u3") "p2" ∅ ∅) Campus.site).2 =
       Return (reply_message 404 "Project not found")).
Proof.
  exact (get_project_own_only (Campus.request (Some "u3") "p2" ∅ ∅) Campus.site
           "u3" Demo.carol eq_refl eq_refl eq_refl).
Defined.

(** X22: the project update refuses a client with 403 and changes nothing.
    Whoever the caller, the route touches no table but [projects], adds no
    project and removes none, and leaves every project of another id as and
    where it is. *)
Theorem patch_project_guard (req : Inbound) (s : Site) (uid : string) :
  req_user (in_req req) = Some uid ->
  (is_client (getUser (Some uid) (site_db s)) = true ->
     patch_project req s = (s, Return (reply_message 403 "Access denied"))) /\
  site_world (patch_project req s).1 = site_world s /\
  podcasts (patch_project req s).1 = podcasts s /\
  projectMessages (patch_project req s).1 = projectMessages s /\
  length (projects (patch_project req s).1) = length (projects s) /\
  forall (i : nat) (row : JsObject),
    projects s !! i = Some row ->
    has_id (req_id (in_req req)) row = false ->
    projects (patch_project req s).1 !! i = Some row.
Proof.
  intros Hu. unfold patch_project. rewrite behind_passes.
  unfold project_patch_handler. run_act. rewrite Hu.
  destruct (is_client (getUser (Some uid) (site_db s))); [by repeat split|].
  split; [done|]. unfold updateProject.
  pose proof (update_where_table (req_id (in_req req)) (req_body (in_req req))
                (db_now (site_db s)) (projects s)) as Htab.
  assert (Hlen : length (update_where (req_id (in_req req)) (req_body (in_req req))
                           (db_now (site_db s)) (projects s)).1 =
                 length (projects s)).
  { unfold update_where. simpl. apply length_fmap. }
  destruct (update_where (req_id (in_req req)) (req_body (in_req req))
              (db_now (site_db s)) (projects s)) as [rows updated].
  simpl in *. repeat split; [done|].
  intros i row Hi Hid. by rewrite Htab, Hi; simpl; rewrite Hid.
Qed.

Lemma patch_project_guard_witness :
  (is_client (getUser (Some "u3") (site_db Campus.site)) = true ->
     patch_project (Campus.request (Some "u3") "p1" {[ "status" := JsStr "done" ]} ∅)
       Campus.site = (Campus.site, Return (reply_message 403 "Access denied"))) /\
  site_world (patch_project
      (Campus.request (Some "u3") "p1" {[ "status" := JsStr "done" ]} ∅)
      Campus.site).1 = site_world Campus.site /\
  podcasts (patch_project
      (Campus.request (Some "u3") "p1" {[ "status" := JsStr "done" ]} ∅)
      Campus.site).1 = podcasts Campus.site /\
  projectMessages (patch_project
      (Campus.request (Some "u3") "p1" {[ "status" := JsStr "done" ]} ∅)
      Campus.site).1 = projectMessages Campus.site /\
  length (projects (patch_project
      (Campus.request (Some "u3") "p1" {[ "status" := JsStr "done" ]} ∅)
      Campus.site).1) = length (projects Campus.site) /\
  forall (i : nat) (row : JsObject),
    projects Campus.site !! i = Some row ->
    has_id "p1" row = false ->
    projects (patch_project
      (Campus.request (Some "u3") "p1" {[ "status" := JsStr "done" ]} ∅)
      Campus.site).1 !! i = Some row.
Proof.
  exact (patch_project_guard
           (Campus.request (Some "u3") "p1" {[ "status" := JsStr "done" ]} ∅)
           Campus.site "u3" eq_refl).
Defined.

(** X23: a client never receives an internal message: the messages in a 200
    are exactly those of the project whose [isInternal] is false.  A caller
    who is not a client receives every message of the project, the internal
    ones included. *)
Theorem messages_by_role (req : Inbound) (s : Site) (uid : string) (u : User) :
  req_user (in_req req) = Some uid ->
  getUser (Some uid) (site_db s) = Some u ->
  (get_messages req s).1 = s /\
  forall r, (get_messages req s).2 = Return r -> reply_status r = 200 ->
    exists ms, reply_body r = Rows ms /\
      forall m, m ∈ ms <->
        m ∈ projectMessages s /\
        m !! "projectId" = Some (JsStr (req_id (in_req req))) /\
        (has_role u "client" = true -> m !! "isInternal" = Some (JsBool false)).
Proof.
  intros Hu Hrow. unfold get_messages. rewrite behind_passes.
  unfold messages_list_handler. run_act. rewrite Hu, Hrow.
  unfold is_client. fold (has_role u "client").
  destruct (getProject (req_id (in_req req)) s) as [p|]; simpl;
    [|split; [done|]; by intros r [= <-] [=]].
  destruct (has_role u "client" && not_client_of p uid) eqn:Hdeny; simpl;
    [split; [done|]; by intros r [= <-] [=]|].
  split; [done|].
  intros r [= <-] _. eexists. split; [done|]. intros m.
  unfold getProjectMessages. rewrite elem_of_order_desc, elem_of_select_where.
  destruct (has_role u "client"); simpl.
  - rewrite andb_true_iff, !bool_decide_eq_true. tauto.
  - rewrite bool_decide_eq_true. split; [|tauto].
    intros [? ?]. repeat split; done.
Qed.

Lemma messages_by_role_witness :
  (get_messages (Campus.request (Some "u3") "p1" ∅ ∅) Campus.site).1 = Campus.site /\
  forall r, (get_messages (Campus.request (Some "u3") "p1" ∅ ∅) Campus.site).2
            = Return r -> reply_status r = 200 ->
    exists ms, reply_body r = Rows ms /\
      forall m, m ∈ ms <->
        m ∈ projectMessages Campus.site /\
        m !! "projectId" = Some (JsStr "p1") /\
        (has_role Demo.carol "client" = true ->
           m !! "isInternal" = Some (JsBool false)).
Proof.
  exact (messages_by_role (Campus.request (Some "u3") "p1" ∅ ∅) Campus.site
           "u3" Demo.carol eq_refl eq_refl).
Defined.

(** ** Shows, seasons, episodes *)

(** A loop over reads collects what each read returns and leaves the state
    as it is. *)
Lemma act_collect_reads {A} (g : A -> Site -> list JsObject) (xs : list A) (s : Site) :
  act_collect (fun x s' => (s', Return (g x s'))) xs s =
    (s, Return (xs ≫= fun x => g x s)).
Proof.
  induction xs as [|x xs IH]; [done|].
  simpl. unfold act_bind. by rewrite IH.
Qed.

(** X24: without [public] and [projectId] in the query, a caller who is not
    an admin is listed only shows of the caller's own projects: every show
    of the answer belongs to a project whose [clientId] (for a client) or
    [assignedProducerId] (for any other role) is the caller; the state is
    unchanged. *)
Theorem get_shows_of_own_projects (req : Inbound) (s : Site) (uid : string) (u : User) :
  req_user (in_req req) = Some uid ->
  getUser (Some uid) (site_db s) = Some u ->
  has_role u "admin" = false ->
  field (in_query req) "public" <> JsStr "true" ->
  truthy (field (in_query req) "projectId") = false ->
  exists rows,
    get_shows req s = (s, Return (MkReply 200 (Rows rows))) /\
    forall sh, sh ∈ rows ->
      sh ∈ shows (site_db s) /\
      exists p, p ∈ projects s /\
        sh !! "projectId" = Some (field p "id") /\
        p !! (if has_role u "client" then "clientId" else "assignedProducerId")
          = Some (JsStr uid).
Proof.
  intros Hu Hrow Hadmin Hpublic Hproject.
  unfold get_shows. rewrite behind_passes.
  unfold shows_list_handler. run_act. rewrite Hu, Hrow.
  rewrite bool_decide_eq_false_2 by done. rewrite Hproject, Hadmin.
  assert (Hin : forall (projs : list JsObject) (col : string) sh,
    (forall p, p ∈ projs -> p ∈ projects s /\ p !! col = Some (JsStr uid)) ->
    sh ∈ (((fun p => field p "id") <$> projs) ≫= fun pId => getShowsForProject pId s) ->
    sh ∈ shows (site_db s) /\
    exists p, p ∈ projects s /\ sh !! "projectId" = Some (field p "id") /\
              p !! col = Some (JsStr uid)).
  { intros projs col sh Hprojs Hsh.
    apply list_elem_of_bind in Hsh as (pId & Hsh & HpId).
    apply list_elem_of_fmap in HpId as (p & -> & Hp).
    unfold getShowsForProject in Hsh.
    rewrite elem_of_order_desc, elem_of_select_where in Hsh.
    destruct Hsh as [Hcol Hsh]. apply column_is_lookup in Hcol.
    destruct (Hprojs p Hp) as [? ?]. split; [done|]. by exists p. }
  destruct (has_role u "client"); simpl; rewrite act_collect_reads;
    eexists; (split; [done|]); intros sh Hsh;
    (eapply Hin; [|exact Hsh]); intros p Hp;
    unfold getProjectsForClient, getProjectsForProducer in Hp;
    rewrite elem_of_order_desc, elem_of_select_where in Hp;
    destruct Hp as [Hcol Hp]; apply column_is_lookup in Hcol; done.
Qed.

Lemma get_shows_of_own_projects_witness :
  exists rows,
    get_shows (Campus.request (Some "u3") "" ∅ ∅) Campus.site =
      (Campus.site, Return (MkReply 200 (Rows rows))) /\
    forall sh, sh ∈ rows ->
      sh ∈ shows (site_db Campus.site) /\
      exists p, p ∈ projects Campus.site /\
        sh !! "projectId" = Some (field p "id") /\
        p !! (if has_role Demo.carol "client" then "clientId" else "assignedProducerId")
          = Some (JsStr "u3").
Proof.
  apply (get_shows_of_own_projects (Campus.request (Some "u3") "" ∅ ∅) Campus.site
           "u3" Demo.carol); try reflexivity.
  discriminate.
Defined.

(** X25: the episode list serves the published episodes whenever the query
    has [published=true], whatever [seasonId] it has; otherwise it serves
    the episodes of the season named by [seasonId], in the order of
    [episodeNumber], and answers 400 when [seasonId] is missing or empty;
    the state is unchanged. *)
Theorem get_episodes_by_query (req : Inbound) (s : Site) (uid : string) :
  req_user (in_req req) = Some uid ->
  (field (in_query req) "published" = JsStr "true" ->
     exists rows,
       get_episodes req s = (s, Return (MkReply 200 (Rows rows))) /\
       forall e, e ∈ rows <->
         e ∈ episodes (site_db s) /\ e !! "isPublished" = Some (JsBool true)) /\
  (field (in_query req) "published" <> JsStr "true" ->
     truthy (field (in_query req) "seasonId") = true ->
     exists rows,
       get_episodes req s = (s, Return (MkReply 200 (Rows rows))) /\
       Sorted (before_asc "episodeNumber") rows /\
       forall e, e ∈ rows <->
         e ∈ episodes (site_db s) /\
         e !! "seasonId" = Some (field (in_query req) "seasonId")) /\
  (field (in_query req) "published" <> JsStr "true" ->
     truthy (field (in_query req) "seasonId") = false ->
     get_episodes req s =
       (s, Return (reply_message 400
          "seasonId parameter is required when not fetching published episodes"))).
Proof.
  intros Hu. unfold get_episodes. rewrite behind_passes.
  unfold episodes_list_handler. run_act. split; [|split].
  - intros Hpub. rewrite bool_decide_eq_true_2 by done.
    eexists. split; [done|]. intros e. unfold getPublishedEpisodes.
    rewrite elem_of_order_desc, elem_of_select_where. simpl.
    rewrite bool_decide_eq_true. tauto.
  - intros Hpub Hseason. rewrite bool_decide_eq_false_2 by done. rewrite Hseason.
    eexists. split; [done|]. unfold getEpisodesForSeason.
    split; [apply Sorted_merge_sort, _|].
    intros e. rewrite elem_of_order_asc, elem_of_select_where.
    unfold column_is.
    destruct (field (in_query req) "seasonId") eqn:Hv; try discriminate;
      rewrite bool_decide_eq_true; tauto.
  - intros Hpub Hseason. rewrite bool_decide_eq_false_2 by done. by rewrite Hseason.
Qed.

Lemma get_episodes_by_query_witness :
  exists rows,
    get_episodes (Campus.request (Some "u3") "" ∅
       {[ "published" := JsStr "true"; "seasonId" := JsStr "zz" ]}) Campus.site =
      (Campus.site, Return (MkReply 200 (Rows rows))) /\
    forall e, e ∈ rows <->
      e ∈ episodes (site_db Campus.site) /\
      e !! "isPublished" = Some (JsBool true).
Proof.
  exact (proj1 (get_episodes_by_query
           (Campus.request (Some "u3") "" ∅
              {[ "published" := JsStr "true"; "seasonId" := JsStr "zz" ]})
           Campus.site "u3" eq_refl) eq_refl).
Defined.

(** X26: the route of the caller's own account answers 200 only with the
    row of [users] whose id is the caller of the request. *)
Theorem auth_user_own_row (req : Inbound) (s : Site) :
  (get_auth_user req s).1 = s /\
  forall r, (get_auth_user req s).2 = Return r -> reply_status r = 200 ->
    exists u, reply_body r = UserRow u /\ u ∈ users (site_db s) /\
              req_user (in_req req) = Some (user_id u).
Proof.
  unfold get_auth_user.
  destruct (req_user (in_req req)) as [uid|] eqn:Hu.
  - rewrite behind_passes. unfold auth_user_handler. run_act.
    rewrite Hu. destruct (truthy (js_of (Some uid))); simpl;
      [|split; [done|]; by intros r [= <-] [=]].
    destruct (getUser (Some uid) (site_db s)) as [u|] eqn:Hrow; simpl;
      [|split; [done|]; by intros r [= <-] [=]].
    split; [done|]. intros r [= <-] _. exists u. split; [done|].
    pose proof (getUser_id _ _ _ Hrow) as ->. split; [|done].
    unfold getUser in Hrow. apply head_Some_elem_of in Hrow.
    by apply list_elem_of_filter in Hrow as [_ ?].
  - rewrite behind_passes. unfold auth_user_handler. run_act.
    rewrite Hu. simpl. split; [done|]. by intros r [= <-] [=].
Qed.

(** ** The reading routes *)

Ltac reads_only :=
  rewrite ?behind_passes; run_act;
  repeat (first [rewrite act_collect_reads in * | case_match];
          simplify_eq; cbn [fst snd]);
  done.

(** X27: no GET route changes the state, whatever the request and whatever
    it answers. *)
Theorem reading_routes_change_nothing (req : Inbound) (s : Site) :
  (get_auth_user req s).1 = s /\
  (get_projects req s).1 = s /\
  (get_project req s).1 = s /\
  (get_podcasts req s).1 = s /\
  (get_podcast req s).1 = s /\
  (get_messages req s).1 = s /\
  (get_shows req s).1 = s /\
  (get_show req s).1 = s /\
  (get_seasons req s).1 = s /\
  (get_season req s).1 = s /\
  (get_episodes req s).1 = s /\
  (get_episode req s).1 = s.
Proof.
  repeat apply conj.
  - unfold get_auth_user, auth_user_handler. reads_only.
  - unfold get_projects, projects_list_handler. reads_only.
  - unfold get_project, project_get_handler. reads_only.
  - unfold get_podcasts. reads_only.
  - unfold get_podcast. reads_only.
  - unfold get_messages, messages_list_handler. reads_only.
  - unfold get_shows, shows_list_handler. reads_only.
  - unfold get_show, show_get_handler. reads_only.
  - unfold get_seasons, seasons_list_handler. reads_only.
  - unfold get_season, season_get_handler. reads_only.
  - unfold get_episodes, episodes_list_handler. reads_only.
  - unfold get_episode, episode_get_handler. reads_only.
Qed.
